(** * blamebot: the two Claude Code hooks, embedded in Rocq

    [capture_prompt.py] (UserPromptSubmit) stashes the sanitized prompt in
    [.git/blamebot/current_prompt.json]; [hook.py] (PostToolUse) turns one
    Edit / Write / MultiEdit payload into edit records and appends them, one
    JSON line each, to the session file named by the stash.

    The embedding follows the two source files function by function.
    Python values are JSON values with Python's dynamic typing made
    explicit: every operation that raises in Python returns [Raise] here.

    Conventions.
    - A Python [str] is a list of Unicode code points ([char := N]), so that
      [len], slicing and the two non-ASCII markers of [compact_change_summary]
      count as they do in Python.
    - JSON numbers are integers (the payload's line numbers and counts);
      floats are left out of the model.
    - Paths are POSIX paths.
    - The Unicode database (which non-ASCII characters are alphanumeric) and
      [repr] of lists and dicts are parameters of the development. *)

From Stdlib Require Import ZArith NArith String Ascii List Bool Lia DecimalString.
From stdpp Require Import gmap list.
Import ListNotations.

#[local] Set Warnings "-register-all".
#[local] Open Scope N_scope.

(* ===================================================================== *)
(** * Python values *)
(* ===================================================================== *)

Abbreviation char := N.
Abbreviation str := (list N).

(** An ASCII literal as a Python string. *)
Definition lit (s : string) : str :=
  List.map N_of_ascii (list_ascii_of_string s).
Arguments lit s%_string.

(** What [json.loads] returns, floating-point numbers apart: the numbers of
    a payload (line numbers and line counts) are integers. Dict keys are
    Python strings. *)
Inductive json :=
| JNull
| JBool (b : bool)
| JInt (z : Z)
| JStr (s : list N)
| JList (l : list json)
| JDict (m : gmap (list N) json).

Abbreviation dict := (gmap (list N) json).

(** The outcome of evaluating a Python expression: a value, or an exception.
    The class of the exception is not recorded: the hooks only ever catch
    [Exception] (the one narrower handler, in [relativize_path], is modelled
    where it stands). *)
Inductive exc (A : Type) :=
| Ok (a : A)
| Raise.
Arguments Ok {A} a.
Arguments Raise {A}.

#[global] Instance exc_ret : MRet exc := fun _ a => Ok a.
#[global] Instance exc_bind : MBind exc := fun _ _ f m =>
  match m with
  | Ok a => f a
  | Raise => Raise
  end.

(** Truth value testing: [None], [False], [0], [""], [[]] and [{}] are false. *)
Definition truthy (v : json) : bool :=
  match v with
  | JNull => false
  | JBool b => b
  | JInt z => negb (z =? 0)%Z
  | JStr s => match s with [] => false | _ => true end
  | JList l => match l with [] => false | _ => true end
  | JDict m => negb (bool_decide (m = ∅))
  end.

(** [a or b]. *)
Definition py_or (a b : json) : json := if truthy a then a else b.

(** [d.get(k, default)]: only a dict has [get]. *)
Definition py_get (d : json) (k : str) (dflt : json) : exc json :=
  match d with
  | JDict m => Ok (default dflt (m !! k))
  | _ => Raise
  end.

(** A value used where only a [str] works (a [str] method, [Path(...)],
    [re.sub]): anything else raises. *)
Definition as_str (v : json) : exc str :=
  match v with
  | JStr s => Ok s
  | _ => Raise
  end.

(** A number in arithmetic: [bool] is a subclass of [int]. *)
Definition as_int (v : json) : exc Z :=
  match v with
  | JInt z => Ok z
  | JBool b => Ok (if b then 1 else 0)%Z
  | _ => Raise
  end.

(* ===================================================================== *)
(** * Methods of [str] *)
(* ===================================================================== *)

(** [str.isspace] of one character (CPython's [_PyUnicode_IsWhitespace]);
    the class [\s] of [re] on a [str] pattern is the same set. *)
Definition is_space (c : char) : bool :=
  ((9 <=? c) && (c <=? 13)) || ((28 <=? c) && (c <=? 32))
  || (c =? 133) || (c =? 160) || (c =? 5760)
  || ((8192 <=? c) && (c <=? 8202))
  || (c =? 8232) || (c =? 8233) || (c =? 8239) || (c =? 8287) || (c =? 12288).

Definition NL : char := 10.
Definition SP : char := 32.
Definition DASH : char := 45.
Definition LANGLE : char := 60.
Definition RANGLE : char := 62.

(** [s.replace('\n', ' ')]. *)
Definition replace_nl (s : str) : str :=
  List.map (fun c => if c =? NL then SP else c) s.

(** [s.count("\n")]. *)
Definition count_nl (s : str) : nat :=
  length (List.filter (fun c => c =? NL) s).

(** [s.lstrip()], [s.rstrip()] and [s.strip()]. *)
Fixpoint lstrip (s : str) : str :=
  match s with
  | c :: s' => if is_space c then lstrip s' else s
  | [] => []
  end.

Definition rstrip (s : str) : str := rev (lstrip (rev s)).

Definition strip (s : str) : str := rstrip (lstrip s).

(** Does [s] begin with a whitespace character? *)
Definition starts_space (s : str) : bool :=
  match s with
  | c :: _ => is_space c
  | [] => false
  end.

(** [s.split()]: the maximal runs of non-whitespace characters, in order. *)
Fixpoint str_split (s : str) : list str :=
  match s with
  | [] => []
  | c :: s' =>
      if is_space c then str_split s'
      else if starts_space s' then [c] :: str_split s'
      else match str_split s' with
           | w :: ws => (c :: w) :: ws
           | [] => [[c]]
           end
  end.

(** [" ".join(ws)]. *)
Fixpoint join_sp (ws : list str) : str :=
  match ws with
  | [] => []
  | [w] => w
  | w :: ws' => w ++ SP :: join_sp ws'
  end.

(** The number of leading positions at which [a] and [b] agree: the loop
    over [zip(old_flat, new_flat)] that breaks at the first difference. *)
Fixpoint common_prefix (a b : str) : nat :=
  match a, b with
  | x :: a', y :: b' => if x =? y then S (common_prefix a' b') else 0%nat
  | _, _ => 0%nat
  end.

(** Decimal digits of a number, as [str(n)] and [%d] print them. *)
Definition dec_N (n : N) : str := lit (NilZero.string_of_uint (N.to_uint n)).

Definition dec_Z (z : Z) : str :=
  match z with
  | Zneg p => lit "-" ++ dec_N (Npos p)
  | _ => dec_N (Z.to_N z)
  end.

(* ===================================================================== *)
(** * [str.encode()] and [hashlib.sha256] *)
(* ===================================================================== *)

(** UTF-8 of one code point; a surrogate (or a number that is no code
    point) cannot be encoded. Bytes are numbers below 256. *)
Definition utf8_char (c : char) : option (list N) :=
  if c <? 128 then Some [c]
  else if c <? 2048 then
    Some [N.lor 192 (N.shiftr c 6); N.lor 128 (N.land c 63)]
  else if (55296 <=? c) && (c <=? 57343) then None
  else if c <? 65536 then
    Some [N.lor 224 (N.shiftr c 12);
          N.lor 128 (N.land (N.shiftr c 6) 63);
          N.lor 128 (N.land c 63)]
  else if c <? 1114112 then
    Some [N.lor 240 (N.shiftr c 18);
          N.lor 128 (N.land (N.shiftr c 12) 63);
          N.lor 128 (N.land (N.shiftr c 6) 63);
          N.lor 128 (N.land c 63)]
  else None.

(** [s.encode()]; [None] is [UnicodeEncodeError]. *)
Fixpoint utf8_encode (s : str) : option (list N) :=
  match s with
  | [] => Some []
  | c :: s' =>
      match utf8_char c, utf8_encode s' with
      | Some b, Some bs => Some (b ++ bs)
      | _, _ => None
      end
  end.

Module SHA256.

Definition w32 (x : N) : N := N.land x 4294967295.
Definition add32 (x y : N) : N := w32 (x + y).
Definition rotr (n x : N) : N :=
  N.lor (N.shiftr x n) (w32 (N.shiftl x (32 - n))).
Definition not32 (x : N) : N := N.lxor x 4294967295.

Definition Ch (x y z : N) := N.lxor (N.land x y) (N.land (not32 x) z).
Definition Maj (x y z : N) :=
  N.lxor (N.lxor (N.land x y) (N.land x z)) (N.land y z).
Definition Sigma0 x := N.lxor (N.lxor (rotr 2 x) (rotr 13 x)) (rotr 22 x).
Definition Sigma1 x := N.lxor (N.lxor (rotr 6 x) (rotr 11 x)) (rotr 25 x).
Definition sigma0 x := N.lxor (N.lxor (rotr 7 x) (rotr 18 x)) (N.shiftr x 3).
Definition sigma1 x := N.lxor (N.lxor (rotr 17 x) (rotr 19 x)) (N.shiftr x 10).

Definition K : list N :=
  [1116352408; 1899447441; 3049323471; 3921009573; 961987163; 1508970993;
   2453635748; 2870763221; 3624381080; 310598401; 607225278; 1426881987;
   1925078388; 2162078206; 2614888103; 3248222580; 3835390401; 4022224774;
   264347078; 604807628; 770255983; 1249150122; 1555081692; 1996064986;
   2554220882; 2821834349; 2952996808; 3210313671; 3336571891; 3584528711;
   113926993; 338241895; 666307205; 773529912; 1294757372; 1396182291;
   1695183700; 1986661051; 2177026350; 2456956037; 2730485921; 2820302411;
   3259730800; 3345764771; 3516065817; 3600352804; 4094571909; 275423344;
   430227734; 506948616; 659060556; 883997877; 958139571; 1322822218;
   1537002063; 1747873779; 1955562222; 2024104815; 2227730452; 2361852424;
   2428436474; 2756734187; 3204031479; 3329325298].

(** The eight working variables. *)
Record state := St { sa : N; sb : N; sc : N; sd : N;
                     se : N; sf : N; sg : N; sh : N }.

Definition H0 : state :=
  St 1779033703 3144134277 1013904242 2773480762
     1359893119 2600822924 528734635 1541459225.

(** Big-endian bytes of an integer, [k] of them. *)
Fixpoint be_bytes (k : nat) (x : N) : list N :=
  match k with
  | O => []
  | S k' => N.land (N.shiftr x (8 * N.of_nat k')) 255 :: be_bytes k' x
  end.

(** The message followed by 0x80, zeros up to 56 mod 64, and its length
    in bits on 8 bytes. *)
Definition pad (msg : list N) : list N :=
  let l := N.of_nat (length msg) in
  let zeros := N.to_nat ((119 - l mod 64) mod 64) in
  msg ++ 128 :: repeat 0 zeros ++ be_bytes 8 (8 * l).

(** Big-endian 32-bit words of a byte string. *)
Fixpoint words (fuel : nat) (bs : list N) : list N :=
  match fuel, bs with
  | S f, b0 :: b1 :: b2 :: b3 :: bs' =>
      (N.shiftl b0 24 + N.shiftl b1 16 + N.shiftl b2 8 + b3) :: words f bs'
  | _, _ => []
  end.

(** The message schedule: [w] holds the last sixteen words. *)
Fixpoint schedule (n : nat) (w : list N) : list N :=
  match n with
  | O => []
  | S n' =>
      let x := add32 (add32 (sigma1 (nth 14 w 0)) (nth 9 w 0))
                     (add32 (sigma0 (nth 1 w 0)) (nth 0 w 0)) in
      x :: schedule n' (tl w ++ [x])
  end.

Definition round (s : state) (kw : N * N) : state :=
  let '(St a b c d e f g h) := s in
  let t1 := add32 (add32 (add32 h (Sigma1 e)) (add32 (Ch e f g) kw.1)) kw.2 in
  let t2 := add32 (Sigma0 a) (Maj a b c) in
  St (add32 t1 t2) a b c (add32 d t1) e f g.

Definition compress (s : state) (block : list N) : state :=
  let w := block ++ schedule 48 block in
  let '(St a b c d e f g h) := fold_left round (combine K w) s in
  St (add32 (sa s) a) (add32 (sb s) b) (add32 (sc s) c) (add32 (sd s) d)
     (add32 (se s) e) (add32 (sf s) f) (add32 (sg s) g) (add32 (sh s) h).

(** Sixteen words at a time. *)
Fixpoint blocks (fuel : nat) (ws : list N) (s : state) : state :=
  match fuel, ws with
  | S f, _ :: _ => blocks f (List.skipn 16 ws) (compress s (List.firstn 16 ws))
  | _, _ => s
  end.

Definition hex_digit (d : N) : char :=
  if d <? 10 then 48 + d else 87 + d.

Definition hex8 (w : N) : str :=
  List.map (fun i => hex_digit (N.land (N.shiftr w (4 * i)) 15))
           [7; 6; 5; 4; 3; 2; 1; 0].

(** [hashlib.sha256(msg).hexdigest()]. *)
Definition hexdigest (msg : list N) : str :=
  let p := pad msg in
  let ws := words (length p) p in
  let '(St a b c d e f g h) := blocks (length ws) ws H0 in
  hex8 a ++ hex8 b ++ hex8 c ++ hex8 d ++ hex8 e ++ hex8 f ++ hex8 g ++ hex8 h.

End SHA256.

(* ===================================================================== *)
(** * Indexing, [len], iteration *)
(* ===================================================================== *)

(** [x[i]] for a non-negative [i]. A dict of JSON has no integer key. *)
Definition py_index (x : json) (i : nat) : exc json :=
  match x with
  | JList l => match l !! i with Some v => Ok v | None => Raise end
  | JStr s => match s !! i with Some c => Ok (JStr [c]) | None => Raise end
  | _ => Raise
  end.

(** [len(x)]. *)
Definition py_len (x : json) : exc nat :=
  match x with
  | JList l => Ok (length l)
  | JStr s => Ok (length s)
  | JDict m => Ok (size m)
  | _ => Raise
  end.

(** The items a [for] loop over [x] visits. *)
Definition py_iter (x : json) : exc (list json) :=
  match x with
  | JList l => Ok l
  | JStr s => Ok (List.map (fun c => JStr [c]) s)
  | JDict m => Ok (List.map (fun kv => JStr kv.1) (map_to_list m))
  | _ => Raise
  end.

(** [enumerate(l)]. *)
Definition enumerate {A} (l : list A) : list (nat * A) :=
  combine (seq 0 (length l)) l.

(** [d.keys()]: only a dict has [keys] (the keys themselves are only logged). *)
Definition py_keys (d : json) : exc unit :=
  match d with
  | JDict _ => Ok ()
  | _ => Raise
  end.

(** [x == "..."] for a string literal. *)
Definition str_eqb (x : json) (s : str) : bool :=
  match x with
  | JStr t => bool_decide (t = s)
  | _ => false
  end.

(** [x is None]. *)
Definition is_none (x : json) : bool :=
  match x with
  | JNull => true
  | _ => false
  end.

(* ===================================================================== *)
(** * [pathlib] (POSIX flavour) *)
(* ===================================================================== *)

Module pathlib.

Definition SLASH : char := 47.
Definition DOT : char := 46.

(** [s.split("/")]. *)
Fixpoint split_slash (s : str) : list str :=
  match s with
  | [] => [[]]
  | c :: s' =>
      if c =? SLASH then [] :: split_slash s'
      else match split_slash s' with
           | w :: ws => (c :: w) :: ws
           | [] => [[c]]
           end
  end.

(** A parsed path: its root (empty, one slash, or exactly two) and its
    components, empty and [.] components dropped. *)
Record PurePath := { root : str; parts : list str }.

Definition parse_root (s : str) : str :=
  match s with
  | 47 :: 47 :: 47 :: _ => [SLASH]
  | 47 :: 47 :: _ => [SLASH; SLASH]
  | 47 :: _ => [SLASH]
  | _ => []
  end.

Definition Path (s : str) : PurePath :=
  {| root := parse_root s;
     parts := List.filter
                (fun p => negb (bool_decide (p = []) || bool_decide (p = [DOT])))
                (split_slash s) |}.

Fixpoint join_slash (ps : list str) : str :=
  match ps with
  | [] => []
  | [p] => p
  | p :: ps' => p ++ SLASH :: join_slash ps'
  end.

(** [str(p)]. *)
Definition to_str (p : PurePath) : str :=
  match root p, parts p with
  | [], [] => [DOT]
  | r, ps => r ++ join_slash ps
  end.

(** [p.relative_to(other)]; [None] is [ValueError]: [other] must have
    the root of [p] and its components must begin those of [p]. *)
Definition relative_to (p other : PurePath) : option PurePath :=
  if bool_decide (root p = root other)
     && bool_decide (take (length (parts other)) (parts p) = parts other)
  then Some {| root := []; parts := drop (length (parts other)) (parts p) |}
  else None.

End pathlib.

(* ===================================================================== *)
(** * The world outside the two scripts *)
(* ===================================================================== *)

(** [time.localtime()]. *)
Record struct_time := {
  tm_year : N; tm_mon : N; tm_mday : N;
  tm_hour : N; tm_min : N; tm_sec : N
}.

(** A two-digit field of [strftime]. *)
Definition pad2 (n : N) : str :=
  if n <? 10 then lit "0" ++ dec_N n else dec_N n.

(** [time.strftime("%Y%m%dT%H%M%SZ")]. *)
Definition strftime_compact (t : struct_time) : str :=
  dec_N (tm_year t) ++ pad2 (tm_mon t) ++ pad2 (tm_mday t) ++ lit "T"
  ++ pad2 (tm_hour t) ++ pad2 (tm_min t) ++ pad2 (tm_sec t) ++ lit "Z".

(** [time.strftime("%Y-%m-%dT%H:%M:%SZ")]. *)
Definition strftime_iso (t : struct_time) : str :=
  dec_N (tm_year t) ++ lit "-" ++ pad2 (tm_mon t) ++ lit "-" ++ pad2 (tm_mday t)
  ++ lit "T" ++ pad2 (tm_hour t) ++ lit ":" ++ pad2 (tm_min t) ++ lit ":"
  ++ pad2 (tm_sec t) ++ lit "Z".

(** [string.ascii_lowercase + string.digits]. *)
Definition ascii_lowercase_digits : str :=
  lit "abcdefghijklmnopqrstuvwxyz0123456789".

(** [random.choices(population, k=k)]: the [j]-th draw picks the item at
    index [draws j] (reduced into range). *)
Definition random_choices (draws : nat -> nat) (population : str) (k : nat) : str :=
  List.map (fun j => nth (draws j mod length population) population 0) (seq 0 k).

(** What one run of a hook reads from its environment. *)
Record env := {
  project_dir : str;            (* str(get_project_dir()) *)
  clock : struct_time;          (* the time of the run *)
  draws : nat -> nat;           (* the random source *)
  git_user_name : option str;   (* stdout of git config user.name, if it ran *)
}.

(** What [sys.stdin.read()] and [json.loads] make of standard input. *)
Inductive stdin :=
| InputUnparseable            (* reading or parsing raises *)
| InputBlank                  (* raw.strip() is empty *)
| InputJson (v : json).

(** The handoff slot [.git/blamebot/current_prompt.json]. *)
Inductive slot :=
| SlotAbsent                  (* state_file.exists() is false *)
| SlotUnreadable              (* open or json.load raises *)
| SlotJson (v : json).

(** One line of a session file: the dict that [hook.main] serializes. *)
Module Record_.
Record t := {
  ts : str;
  file : str;
  lines : json * json;
  content_hash : str;
  prompt : json;
  reason : str;
  change : str;
  tool : json;
  author : json;
  session : json;
  trace : json
}.
End Record_.

(** The part of the file system the hooks act on. A session file is the
    list of its lines, keyed by its name under [.blamebot/log]: the key is
    the string that the handler joins to the log directory, and a file is
    taken to be the one of that name in the directory. For a name with a
    path separator the joined path may lead anywhere, the slot included;
    what is said about the slot is said for names without one. *)
Record fs := {
  blamebot_is_dir : bool;                  (* (project_dir / ".blamebot").is_dir() *)
  state_file : slot;
  log_files : gmap (list N) (list Record_.t);
  mkdir_ok : bool;                         (* the mkdir calls succeed *)
  can_write_state : bool;                  (* open(state_file, "w") succeeds *)
  can_append : str -> bool                 (* open(session_path, "a") succeeds *)
}.

Definition set_log_files (w : fs) (l : gmap (list N) (list Record_.t)) : fs :=
  {| blamebot_is_dir := blamebot_is_dir w; state_file := state_file w;
     log_files := l; mkdir_ok := mkdir_ok w;
     can_write_state := can_write_state w; can_append := can_append w |}.

Definition set_state_file (w : fs) (s : slot) : fs :=
  {| blamebot_is_dir := blamebot_is_dir w; state_file := s;
     log_files := log_files w; mkdir_ok := mkdir_ok w;
     can_write_state := can_write_state w; can_append := can_append w |}.

(** The lines of a session file (none when the file does not exist). *)
Definition read_log (w : fs) (name : str) : list Record_.t :=
  default [] (log_files w !! name).

(* ===================================================================== *)
(** * hook.py *)
(* ===================================================================== *)

Module hook.

(** One element of the list that [extract_edits] returns. *)
Module Edit.
Record t := {
  file : str;
  line_start : json;
  line_end : json;
  content_hash : str;
  change : str
}.
End Edit.

Definition MAX_LEN : nat := 200.
Definition ELLIPSIS : char := 8230.
Definition ARROW : char := 8594.

(** [content_hash(text)]. *)
Definition content_hash (text : json) : exc str :=
  if negb (truthy text) then Ok []
  else
    s ← as_str text;
    let normalized := join_sp (str_split s) in
    match utf8_encode normalized with
    | Some bytes => Ok (take 16 (SHA256.hexdigest bytes))
    | None => Raise
    end.

(** [relativize_path(abs_path, project_dir)]. [Path(abs_path)] raises on
    anything but a string; only the [ValueError] of [relative_to] is caught. *)
Definition relativize_path (abs_path : json) (project_dir : str) : exc str :=
  p ← as_str abs_path;
  match pathlib.relative_to (pathlib.Path p) (pathlib.Path project_dir) with
  | Some r => Ok (pathlib.to_str r)
  | None => Ok p
  end.

(** The truncation at the end of [compact_change_summary]. *)
Definition truncate (display : str) : str :=
  if (MAX_LEN <? length display)%nat then take MAX_LEN display ++ [ELLIPSIS]
  else display.

(** [compact_change_summary(old_str, new_str)]. *)
Definition compact_change_summary (old_str new_str : json) : exc str :=
  if negb (truthy old_str) && truthy new_str then
    n ← as_str new_str;
    Ok (lit "added: " ++ replace_nl (take MAX_LEN n))
  else if truthy old_str && negb (truthy new_str) then
    o ← as_str old_str;
    Ok (lit "removed: " ++ replace_nl (take MAX_LEN o))
  else
    o ← as_str old_str;
    n ← as_str new_str;
    let old_flat := strip (replace_nl o) in
    let new_flat := strip (replace_nl n) in
    let common := common_prefix old_flat new_flat in
    let '(old_display, new_display) :=
      if (20 <? common)%nat then
        let offset := Nat.max (common - 10) 0 in
        (ELLIPSIS :: drop offset old_flat, ELLIPSIS :: drop offset new_flat)
      else (old_flat, new_flat) in
    Ok (truncate old_display ++ [SP; ARROW; SP] ++ truncate new_display).

(** The arithmetic shared by the two places that read a patch entry:
    [start + max(lines - 1, 0)]. *)
Definition range_end (start lines : json) : exc json :=
  l ← as_int lines;
  s ← as_int start;
  Ok (JInt (s + Z.max (l - 1) 0)).

(** [extract_line_numbers(data)]. *)
Definition extract_line_numbers (data : json) : exc (json * json) :=
  tool_response ← py_get data (lit "tool_response") (JDict ∅);
  patches ← py_get tool_response (lit "structuredPatch") (JList []);
  if negb (truthy patches) then Ok (JNull, JNull)
  else
    patch ← py_index patches 0;
    start ← py_get patch (lit "newStart") JNull;
    lines ← py_get patch (lit "newLines") (JInt 0);
    if negb (is_none start) then
      end_ ← range_end start lines;
      Ok (start, end_)
    else Ok (JNull, JNull).

(** Lines 199-204: the range of the [i]-th sub-edit of a MultiEdit. *)
Definition sub_edit_lines (patches : json) (i : nat) : exc (json * json) :=
  n ← py_len patches;
  if (i <? n)%nat then
    p ← py_index patches i;
    start ← py_get p (lit "newStart") JNull;
    if negb (is_none start) then
      lines ← py_get p (lit "newLines") (JInt 1);
      end_ ← range_end start lines;
      Ok (start, end_)
    else Ok (start, JNull)
  else Ok (JNull, JNull).

Section with_repr.

(** [repr] of a list or a dict, which an f-string prints for such a value. *)
Variable py_repr : json -> str.

(** [f"{v}"]. *)
Definition py_str (v : json) : str :=
  match v with
  | JStr s => s
  | JNull => lit "None"
  | JBool true => lit "True"
  | JBool false => lit "False"
  | JInt z => dec_Z z
  | _ => py_repr v
  end.

(** The body of the MultiEdit loop for the pair [(i, edit)]. *)
Definition sub_edit (patches : json) (file_path project_dir : str)
    (ie : nat * json) : exc Edit.t :=
  let '(i, edit) := ie in
  new_str ← py_get edit (lit "new_string") (JStr []);
  old_str ← py_get edit (lit "old_string") (JStr []);
  '(start, end_) ← sub_edit_lines patches i;
  own ← py_get edit (lit "file_path") (JStr []);
  file ← relativize_path (py_or own (JStr file_path)) project_dir;
  h ← content_hash new_str;
  c ← compact_change_summary old_str new_str;
  Ok {| Edit.file := file; Edit.line_start := start; Edit.line_end := end_;
        Edit.content_hash := h; Edit.change := c |}.

(** Lines 157-158: [tool_input.get("file_path", "") or tool_input.get("path", "")]. *)
Definition input_path (tool_input : json) : exc json :=
  fp ← py_get tool_input (lit "file_path") (JStr []);
  if truthy fp then Ok fp else py_get tool_input (lit "path") (JStr []).

(** Lines 176-180: [tool_input.get("content") or tool_input.get("file_text") or ""]. *)
Definition write_content (tool_input : json) : exc json :=
  a ← py_get tool_input (lit "content") JNull;
  if truthy a then Ok a
  else b ← py_get tool_input (lit "file_text") JNull;
       Ok (py_or b (JStr [])).

(** Line 192: [tool_input.get("edits") or tool_input.get("changes") or []]. *)
Definition sub_edits (tool_input : json) : exc json :=
  a ← py_get tool_input (lit "edits") JNull;
  if truthy a then Ok a
  else b ← py_get tool_input (lit "changes") JNull;
       Ok (py_or b (JList [])).

(** [extract_edits(data, project_dir)]. *)
Definition extract_edits (data : json) (project_dir : str) : exc (list Edit.t) :=
  tool_name ← py_get data (lit "tool_name") (JStr []);
  tool_input ← py_get data (lit "tool_input") (JDict ∅);
  tool_response ← py_get data (lit "tool_response") (JDict ∅);
  named ← input_path tool_input;
  file_path ← relativize_path named project_dir;
  if str_eqb tool_name (lit "Edit") then
    old_str ← py_get tool_input (lit "old_string") (JStr []);
    new_str ← py_get tool_input (lit "new_string") (JStr []);
    '(line_start, line_end) ← extract_line_numbers data;
    h ← content_hash new_str;
    c ← compact_change_summary old_str new_str;
    Ok [ {| Edit.file := file_path; Edit.line_start := line_start;
            Edit.line_end := line_end; Edit.content_hash := h;
            Edit.change := c |} ]
  else if str_eqb tool_name (lit "Write") then
    content ← write_content tool_input;
    (* content.count and the slice: [content] is "" or a true value, and of
       the true values only a str gets through content_hash *)
    text ← as_str content;
    let n_lines := if truthy content then Some (count_nl text + 1)%nat else None in
    h ← content_hash (JStr (take 500 text));
    Ok [ {| Edit.file := file_path; Edit.line_start := JInt 1;
            Edit.line_end := match n_lines with
                             | Some n => JInt (Z.of_nat n)
                             | None => JNull
                             end;
            Edit.content_hash := h;
            Edit.change := match n_lines with
                           | Some n => lit "created file (" ++ dec_N (N.of_nat n)
                                       ++ lit " lines)"
                           | None => lit "created file"
                           end |} ]
  else if str_eqb tool_name (lit "MultiEdit") then
    edits ← sub_edits tool_input;
    patches ← py_get tool_response (lit "structuredPatch") (JList []);
    items ← py_iter edits;
    mapM (sub_edit patches file_path project_dir) (enumerate items)
  else
    Ok [ {| Edit.file := match file_path with
                         | [] => lit "unknown:" ++ py_str tool_name
                         | _ => file_path
                         end;
            Edit.line_start := JNull; Edit.line_end := JNull;
            Edit.content_hash := [];
            Edit.change := lit "unknown tool: " ++ py_str tool_name |} ].

(** The session file when the stash names none: lines 271-274. *)
Definition orphan_filename (e : env) : str :=
  let ts := strftime_compact (clock e) in
  let rand := random_choices (draws e) ascii_lowercase_digits 6 in
  ts ++ lit "-" ++ rand ++ lit "-orphan.jsonl".

(** Lines 257-265: the stashed prompt state, [{}] when there is no stash or
    it cannot be read. *)
Definition load_prompt_state (w : fs) : json :=
  match state_file w with
  | SlotJson v => v
  | SlotAbsent | SlotUnreadable => JDict ∅
  end.

(** Lines 268-275: the session file named by the stash, else a fresh orphan. *)
Definition determine_session_file (e : env) (prompt_state : json) : exc json :=
  session_filename ← py_get prompt_state (lit "session_file") JNull;
  if negb (truthy session_filename) then Ok (JStr (orphan_filename e))
  else Ok session_filename.

(** Lines 283-292: the trace reference. *)
Definition trace_reference (data prompt_state : json) : exc json :=
  t1 ← py_get data (lit "transcript_path") JNull;
  t2 ← py_get prompt_state (lit "transcript_path") JNull;
  let transcript_path := py_or t1 (py_or t2 (JStr [])) in
  tool_use_id ← py_get data (lit "tool_use_id") (JStr []);
  if truthy tool_use_id
  then Ok (JStr (py_str transcript_path ++ lit "#" ++ py_str tool_use_id))
  else Ok transcript_path.

(** Lines 294-299: the session id. *)
Definition session_identifier (data prompt_state : json) : exc json :=
  s1 ← py_get data (lit "session_id") JNull;
  s2 ← py_get prompt_state (lit "session_id") JNull;
  Ok (py_or s1 (py_or s2 (JStr []))).

(** Lines 311-323: the record written for one edit. *)
Definition make_record (now : str) (prompt tool_name author session_id trace_ref : json)
    (edit : Edit.t) : Record_.t :=
  {| Record_.ts := now;
     Record_.file := Edit.file edit;
     Record_.lines := (Edit.line_start edit, Edit.line_end edit);
     Record_.content_hash := Edit.content_hash edit;
     Record_.prompt := prompt;
     Record_.reason := [];
     Record_.change := Edit.change edit;
     Record_.tool := tool_name;
     Record_.author := author;
     Record_.session := session_id;
     Record_.trace := trace_ref |}.

(** [main()]. Writing to the diagnostic log is not part of the model (it is
    taken to succeed); the arguments of each [log_debug] call are evaluated,
    as they can raise. *)
Definition main (e : env) (input : stdin) (w : fs) : exc fs :=
  if negb (blamebot_is_dir w) then Ok w
  else match input with
  | InputUnparseable => Ok w
  | _ =>
    let data := match input with InputJson v => v | _ => JDict ∅ end in
    (* log_debug(cache_dir, "Parsed payload", {...}) *)
    _ ← py_get data (lit "tool_name") JNull;
    logged_input ← py_get data (lit "tool_input") (JDict ∅);
    _ ← py_keys logged_input;
    let prompt_state := load_prompt_state w in
    session_filename ← determine_session_file e prompt_state;
    (* log_dir / session_filename *)
    session_path ← as_str session_filename;
    edits ← extract_edits data (project_dir e);
    trace_ref ← trace_reference data prompt_state;
    session_id ← session_identifier data prompt_state;
    let now := strftime_iso (clock e) in
    tool_name ← py_get data (lit "tool_name") (JStr []);
    author ← py_get prompt_state (lit "author") (JStr (lit "unknown"));
    if negb (mkdir_ok w) then Raise
    else if can_append w session_path then
      prompt ← py_get prompt_state (lit "prompt") (JStr []);
      let record := make_record now prompt tool_name author session_id trace_ref in
      Ok (set_log_files w
            (<[session_path := read_log w session_path ++ List.map record edits]>
               (log_files w)))
    else Ok w
  end.

(** The script: [try: main() except Exception: pass]. Nothing is written
    before the last statement of [main] that can raise, so a run that
    raises leaves the file system as it was. *)
Definition run (e : env) (input : stdin) (w : fs) : fs :=
  match main e input w with
  | Ok w' => w'
  | Raise => w
  end.

End with_repr.
End hook.

(* ===================================================================== *)
(** * The two patterns of [clean_prompt], as [re] matches them *)
(* ===================================================================== *)

Module re.

(** A matcher tries to match at the start of its input and returns what
    follows the match. *)
Definition matcher := str -> option str.

(** A literal piece of a pattern. *)
Fixpoint literal (p : str) (s : str) : option str :=
  match p, s with
  | [], _ => Some s
  | x :: p', y :: s' => if x =? y then literal p' s' else None
  | _ :: _, [] => None
  end.

Section word.

(** [str.isalnum] of a character outside ASCII: the Unicode database. *)
Variable unicode_alnum : char -> bool.

(** The class [\w] of a [str] pattern. *)
Definition is_word (c : char) : bool :=
  if c <? 128 then
    ((48 <=? c) && (c <=? 57)) || ((65 <=? c) && (c <=? 90))
    || ((97 <=? c) && (c <=? 122)) || (c =? 95)
  else unicode_alnum c.

(** The longest run of word characters is dropped. *)
Fixpoint skip_word (s : str) : str :=
  match s with
  | c :: s' => if is_word c then skip_word s' else s
  | [] => []
  end.

(** [\w+>]: the pattern that follows is [>], which is no word character,
    so only the longest run of word characters can be followed by it. *)
Definition word_gt (s : str) : option str :=
  match s with
  | c :: s' => if is_word c then literal (lit ">") (skip_word s') else None
  | [] => None
  end.

(** [<ide_\w+>] and [</ide_\w+>]. *)
Definition open_tag : matcher := fun s =>
  s' ← literal (lit "<ide_") s; word_gt s'.
Definition close_tag : matcher := fun s =>
  s' ← literal (lit "</ide_") s; word_gt s'.

End word.

(** [.*?k] under DOTALL: the first position, from the left, where [k] matches. *)
Fixpoint lazy_any (k : matcher) (s : str) : option str :=
  match k s with
  | Some r => Some r
  | None => match s with
            | _ :: s' => lazy_any k s'
            | [] => None
            end
  end.

(** [open.*?close\s*]: the final [\s*] takes all the whitespace there is. *)
Definition span (open close : matcher) : matcher := fun s =>
  s1 ← open s; s2 ← lazy_any close s1; Some (lstrip s2).

(** [re.sub(pattern, '', s)] for a pattern [m] that matches no empty
    string: scanning from the left, every match is deleted and the scan
    goes on after it. [skip] counts the characters of the current match
    still to be dropped. *)
Fixpoint sub_from (m : matcher) (skip : nat) (s : str) : str :=
  match s with
  | [] => []
  | c :: s' =>
      match skip with
      | S k => sub_from m k s'
      | O => match m s with
             | Some r => sub_from m (length s' - length r) s'
             | None => c :: sub_from m 0 s'
             end
      end
  end.

Definition sub (m : matcher) (s : str) : str := sub_from m 0 s.

End re.

(* ===================================================================== *)
(** * capture_prompt.py *)
(* ===================================================================== *)

Module capture_prompt.

(** The name of the session file of a new prompt: lines 104-106. *)
Definition session_filename (e : env) : str :=
  let ts := strftime_compact (clock e) in
  let rand := random_choices (draws e) ascii_lowercase_digits 6 in
  ts ++ lit "-" ++ rand ++ lit ".jsonl".

Section with_unicode.

Variable unicode_alnum : char -> bool.

(** [<ide_opened_file>.*?</ide_opened_file>\s*] *)
Definition opened_file_span : re.matcher :=
  re.span (re.literal (lit "<ide_opened_file>"))
          (re.literal (lit "</ide_opened_file>")).

(** [<ide_\w+>.*?</ide_\w+>\s*] *)
Definition ide_span : re.matcher :=
  re.span (re.open_tag unicode_alnum) (re.close_tag unicode_alnum).

(** [clean_prompt(raw_prompt)]; [re.sub] raises on anything but a string. *)
Definition clean_prompt (raw_prompt : json) : exc str :=
  s ← as_str raw_prompt;
  let cleaned := re.sub opened_file_span s in
  let cleaned := re.sub ide_span cleaned in
  Ok (strip cleaned).

(** [get_git_author()]. *)
Definition get_git_author (e : env) : str :=
  match git_user_name e with
  | Some out => match strip out with
                | [] => lit "unknown"
                | name => name
                end
  | None => lit "unknown"
  end.

(** [main()]. *)
Definition main (e : env) (input : stdin) (w : fs) : exc fs :=
  if negb (blamebot_is_dir w) then Ok w
  else
    let data := match input with InputJson v => v | _ => JDict ∅ end in
    raw_prompt ← py_get data (lit "prompt") (JStr []);
    prompt ← clean_prompt raw_prompt;
    session_id ← py_get data (lit "session_id") (JStr []);
    transcript_path ← py_get data (lit "transcript_path") (JStr []);
    let state : dict :=
      <[lit "prompt" := JStr prompt]>
      (<[lit "prompt_raw" := raw_prompt]>
      (<[lit "timestamp" := JStr (strftime_iso (clock e))]>
      (<[lit "session_file" := JStr (session_filename e)]>
      (<[lit "author" := JStr (get_git_author e)]>
      (<[lit "session_id" := session_id]>
      (<[lit "transcript_path" := transcript_path]> ∅)))))) in
    if negb (mkdir_ok w) then Raise
    else if negb (can_write_state w) then Raise
    else Ok (set_state_file w (SlotJson (JDict state))).

(** The script: [try: main() except Exception: pass]. *)
Definition run (e : env) (input : stdin) (w : fs) : fs :=
  match main e input w with
  | Ok w' => w'
  | Raise => w
  end.

End with_unicode.
End capture_prompt.

(* ===================================================================== *)
(** * Vocabulary of the properties *)
(* ===================================================================== *)

(** A JSON object and a JSON string written with ASCII literals. *)
Definition obj (fields : list (string * json)) : json :=
  JDict (list_to_map (List.map (fun kv => (lit kv.1, kv.2)) fields)).

Definition jstr (s : string) : json := JStr (lit s).
Arguments jstr s%_string.

(** A structured-patch descriptor with both fields, and without the count. *)
Definition descriptor (start count : Z) : json :=
  obj [("newStart"%string, JInt start); ("newLines"%string, JInt count)].

Definition descriptor_no_count (start : Z) : json :=
  obj [("newStart"%string, JInt start)].

(** A payload that carries just a structured-patch list. *)
Definition patched (patches : list json) : json :=
  obj [("tool_response"%string, obj [("structuredPatch"%string, JList patches)])].

(** Text that [str.encode()] accepts: no lone surrogate in it. *)
Definition encodable (s : str) : Prop := is_Some (utf8_encode s).

(** Spec, 4.2: normalization collapses every run of whitespace to a single
    space. A whitespace character followed by another one is dropped, the
    last one of a run becomes a space. *)
Fixpoint collapse_ws (s : str) : str :=
  match s with
  | [] => []
  | c :: s' =>
      if is_space c then
        if starts_space s' then collapse_ws s' else SP :: collapse_ws s'
      else c :: collapse_ws s'
  end.

(** Spec, 4.4: flatten is newlines to spaces, then trim. *)
Definition flatten (s : str) : str := strip (replace_nl s).

Definition is_hex (c : char) : bool :=
  ((48 <=? c) && (c <=? 57)) || ((97 <=? c) && (c <=? 102)).

(** ** Edit events, as the docstring of hook.py describes them

    [tool_input] carries the path and the two strings; [tool_response],
    when present, carries a structured-patch list whose first entry has an
    integer (or no) start and an integer (or no) count. *)
Definition is_str (v : json) : bool :=
  match v with
  | JStr _ => true
  | _ => false
  end.

Definition is_encodable_str (v : json) : bool :=
  match v with
  | JStr s => match utf8_encode s with Some _ => true | None => false end
  | _ => false
  end.

Definition patch_ok (p : json) : bool :=
  match p with
  | JDict pm =>
      match pm !! lit "newStart" with
      | None | Some JNull => true
      | Some (JInt _) =>
          match pm !! lit "newLines" with
          | None | Some (JInt _) => true
          | _ => false
          end
      | _ => false
      end
  | _ => false
  end.

Definition response_ok (d : dict) : bool :=
  match d !! lit "tool_response" with
  | None => true
  | Some (JDict tr) =>
      match tr !! lit "structuredPatch" with
      | None | Some (JList []) => true
      | Some (JList (p :: _)) => patch_ok p
      | _ => false
      end
  | _ => false
  end.

Definition edit_event_ok (data : json) : bool :=
  match data with
  | JDict d =>
      str_eqb (default (JStr []) (d !! lit "tool_name")) (lit "Edit")
      && match d !! lit "tool_input" with
         | Some (JDict ti) =>
             match hook.input_path (JDict ti) with
             | Ok (JStr _) => true
             | _ => false
             end
             && is_str (default (JStr []) (ti !! lit "old_string"))
             && is_encodable_str (default (JStr []) (ti !! lit "new_string"))
         | _ => false
         end
      && response_ok d
  | _ => false
  end.

(** ** Markup, as the Sanitizer sees it *)

(** Text with no recognized markup span: neither pattern of [clean_prompt]
    matches at any position of it. *)
Definition no_markup (unicode_alnum : char -> bool) (t : str) : Prop :=
  re.lazy_any capture_prompt.opened_file_span t = None
  /\ re.lazy_any (capture_prompt.ide_span unicode_alnum) t = None.

(** Text in which no closing tag [</ide_NAME>] occurs. *)
Definition no_closing_tag (unicode_alnum : char -> bool) (t : str) : Prop :=
  re.lazy_any (re.close_tag unicode_alnum) t = None.

(** A matcher whose matches survive when more text follows. *)
Definition extends (m : re.matcher) : Prop :=
  forall x y r, m x = Some r -> exists r', m (x ++ y) = Some r'.

(** [<ide_NAME>body</ide_NAME>]. *)
Definition tag_pair (name body : str) : str :=
  lit "<ide_" ++ name ++ lit ">" ++ body ++ lit "</ide_" ++ name ++ lit ">".

(** What a script takes as [data] when standard input is blank (and
    capture_prompt.py also when it cannot be parsed): [{}]. *)
Definition payload (input : stdin) : json :=
  match input with
  | InputJson v => v
  | InputBlank | InputUnparseable => JDict ∅
  end.

(** The characters of a generated session file name: digits, lowercase
    letters, [T], [Z], [-] and [.]. *)
Definition filename_char (c : char) : bool :=
  ((48 <=? c) && (c <=? 57)) || ((97 <=? c) && (c <=? 122))
  || (c =? 84) || (c =? 90) || (c =? 45) || (c =? 46).

(** A clean path component: not empty, not [.], and without a slash. *)
Definition component (p : str) : Prop :=
  p <> [] /\ p <> [pathlib.DOT] /\ Forall (fun c => c <> pathlib.SLASH) p.

(** A slot that names its session file by a bare file name: where the
    slot holds an object whose session_file is a string, the string has no
    path separator. An absent or unreadable slot is such a slot, and so is
    every slot that capture_prompt.py writes. *)
Definition names_bare_file (s : slot) : Prop :=
  forall ps name,
    s = SlotJson (JDict ps) ->
    ps !! lit "session_file" = Some (JStr name) ->
    Forall (fun c => c <> pathlib.SLASH) name.

(** ** Sample payloads and stand-ins for the parameters *)

(** In the examples no list or dict is ever printed and no character
    outside ASCII occurs, so any [repr] and any Unicode table will do. *)
Definition no_repr : json -> str := fun _ => [].
Definition ascii_only : char -> bool := fun _ => false.

Definition edit_example : json :=
  obj [("tool_name", jstr "Edit");
       ("tool_use_id", jstr "toolu_01");
       ("session_id", jstr "s-1");
       ("tool_input", obj [("file_path", jstr "/proj/src/a.py");
                           ("old_string", jstr "foo");
                           ("new_string", jstr "bar baz")]);
       ("tool_response", obj [("structuredPatch", JList [descriptor 10 5])])]%string.

Definition write_example : json :=
  obj [("tool_name", jstr "Write");
       ("tool_input",
        obj [("file_path", jstr "/proj/src/a.py");
             ("content", JStr (lit "a" ++ [NL] ++ lit "b" ++ [NL] ++ lit "c" ++ [NL]))])]%string.

Definition multiedit_empty_example : json :=
  obj [("tool_name", jstr "MultiEdit");
       ("tool_input", obj [("file_path", jstr "/proj/src/a.py");
                           ("edits", JList [])])]%string.

(** Three sub-edits, two structured-patch entries. *)
Definition sub_edit_example (old new : string) : json :=
  obj [("old_string", jstr old); ("new_string", jstr new)]%string.

Definition multiedit_fields : list (str * json) :=
  [(lit "tool_name", jstr "MultiEdit");
   (lit "tool_input",
    obj [("file_path", jstr "/proj/src/a.py");
         ("edits", JList [sub_edit_example "a" "b";
                          sub_edit_example "c" "d";
                          sub_edit_example "e" "f"])]%string);
   (lit "tool_response",
    obj [("structuredPatch"%string, JList [descriptor 3 1; descriptor 8 2])])].

Definition multiedit_example : json := JDict (list_to_map multiedit_fields).

Definition unknown_example : json :=
  obj [("tool_name", jstr "NotebookEdit")]%string.

(** A run environment, an initialized project with nothing stashed, the
    payload of the prompt "fix bug" as the IDE wraps it, and the project
    after capture_prompt.py has run on it. *)
Definition sample_env : env :=
  {| project_dir := lit "/proj";
     clock := {| tm_year := 2026; tm_mon := 11; tm_mday := 3;
                 tm_hour := 9; tm_min := 5; tm_sec := 7 |};
     draws := fun j => (7 * j + 3)%nat;
     git_user_name := Some (lit "dev" ++ [NL]) |}.

Definition fresh_fs : fs :=
  {| blamebot_is_dir := true; state_file := SlotAbsent; log_files := ∅;
     mkdir_ok := true; can_write_state := true; can_append := fun _ => true |}.

Definition prompt_example : json :=
  obj [("prompt",
        jstr "<ide_opened_file>The user opened a.py</ide_opened_file> fix bug");
       ("session_id", jstr "s-1");
       ("transcript_path", jstr "/tmp/t.jsonl")]%string.

Definition stashed_fs : fs :=
  capture_prompt.run ascii_only sample_env (InputJson prompt_example) fresh_fs.

(* ===================================================================== *)
(** * Properties *)
(* ===================================================================== *)

(** ** The exception monad *)

Lemma bind_Ok {A B} (m : exc A) (f : A -> exc B) (b : B) :
  m ≫= f = Ok b -> exists a, m = Ok a /\ f a = Ok b.
Proof. destruct m as [a|]; simpl; [eauto | discriminate]. Qed.

Lemma bind_Ok_l {A B} (m : exc A) (f : A -> exc B) (a : A) :
  m = Ok a -> m ≫= f = f a.
Proof. intros ->. reflexivity. Qed.

Lemma py_get_dict (m : dict) (k : str) (dflt : json) :
  py_get (JDict m) k dflt = Ok (default dflt (m !! k)).
Proof. reflexivity. Qed.

Lemma py_get_Ok (d : json) (k : str) (dflt v : json) :
  py_get d k dflt = Ok v -> exists m, d = JDict m /\ v = default dflt (m !! k).
Proof. destruct d; simpl; intros H; try discriminate. inversion H. eauto. Qed.

(** Inverts every successful step of a chain of binds in hypothesis [H]. *)
Ltac exc_inv H :=
  repeat match type of H with
  | _ ≫= _ = Ok _ =>
      let a := fresh "v" in
      let Ha := fresh "Hv" in
      apply bind_Ok in H as (a & Ha & H)
  end.

(** ** LineRangeResolver *)

Lemma range_end_int (s n : Z) :
  hook.range_end (JInt s) (JInt n) = Ok (JInt (s + Z.max (n - 1) 0)).
Proof. reflexivity. Qed.

Lemma extract_line_numbers_empty (d tr : dict) :
  d !! lit "tool_response" = Some (JDict tr) ->
  tr !! lit "structuredPatch" = Some (JList []) ->
  hook.extract_line_numbers (JDict d) = Ok (JNull, JNull).
Proof.
  intros Hd Htr. unfold hook.extract_line_numbers.
  rewrite py_get_dict, Hd. simpl. rewrite Htr. reflexivity.
Qed.

Lemma extract_line_numbers_first (d tr pm : dict) (rest : list json) (s n : Z) :
  d !! lit "tool_response" = Some (JDict tr) ->
  tr !! lit "structuredPatch" = Some (JList (JDict pm :: rest)) ->
  pm !! lit "newStart" = Some (JInt s) ->
  pm !! lit "newLines" = Some (JInt n) ->
  hook.extract_line_numbers (JDict d) = Ok (JInt s, JInt (s + Z.max (n - 1) 0)).
Proof.
  intros Hd Htr Hs Hn. unfold hook.extract_line_numbers.
  rewrite py_get_dict, Hd. simpl. rewrite Htr. simpl.
  rewrite Hs, Hn. reflexivity.
Qed.

(** C3 (as amended). The resolver maps an empty structured-patch list to
    (null, null); a first descriptor with start 10 and count 5 to (10, 14);
    and a first descriptor with start 10 and count 0 to (10, 10): the end
    never falls below the start. *)
Theorem line_range_resolver_cases (d tr : dict) :
  d !! lit "tool_response" = Some (JDict tr) ->
  (tr !! lit "structuredPatch" = Some (JList []) ->
   hook.extract_line_numbers (JDict d) = Ok (JNull, JNull))
  /\ (forall pm rest,
        tr !! lit "structuredPatch" = Some (JList (JDict pm :: rest)) ->
        pm !! lit "newStart" = Some (JInt 10) ->
        pm !! lit "newLines" = Some (JInt 5) ->
        hook.extract_line_numbers (JDict d) = Ok (JInt 10, JInt 14))
  /\ (forall pm rest,
        tr !! lit "structuredPatch" = Some (JList (JDict pm :: rest)) ->
        pm !! lit "newStart" = Some (JInt 10) ->
        pm !! lit "newLines" = Some (JInt 0) ->
        hook.extract_line_numbers (JDict d) = Ok (JInt 10, JInt 10)).
Proof.
  intros Hd. split; [|split].
  - intros Htr. eapply extract_line_numbers_empty; eassumption.
  - intros pm rest Htr Hs Hn.
    rewrite (extract_line_numbers_first d tr pm rest 10 5) by assumption.
    reflexivity.
  - intros pm rest Htr Hs Hn.
    rewrite (extract_line_numbers_first d tr pm rest 10 0) by assumption.
    reflexivity.
Qed.

(** C3, the claim as written fails: start 10 with count 0 resolves to
    (10, 10), not to the degenerate pair (10, 9). *)
Lemma line_range_zero_count_counterexample :
  hook.extract_line_numbers (patched [descriptor 10 0]) = Ok (JInt 10, JInt 10)
  /\ hook.extract_line_numbers (patched [descriptor 10 0]) <> Ok (JInt 10, JInt 9).
Proof.
  assert (H : hook.extract_line_numbers (patched [descriptor 10 0])
              = Ok (JInt 10, JInt 10)) by (vm_compute; reflexivity).
  split; [exact H | rewrite H; discriminate].
Qed.

Lemma line_range_resolver_cases_witness :
  hook.extract_line_numbers (patched []) = Ok (JNull, JNull)
  /\ hook.extract_line_numbers (patched [descriptor 10 5]) = Ok (JInt 10, JInt 14)
  /\ hook.extract_line_numbers (patched [descriptor 10 0]) = Ok (JInt 10, JInt 10).
Proof.
  split; [|split].
  - eapply (line_range_resolver_cases _ _); reflexivity.
  - eapply (line_range_resolver_cases _ _); reflexivity.
  - eapply (line_range_resolver_cases _ _); reflexivity.
Defined.

(** ** The two range computations agree *)

Lemma range_end_default (start : json) (pm : dict) :
  hook.range_end start (default (JInt 1) (pm !! lit "newLines"))
  = hook.range_end start (default (JInt 0) (pm !! lit "newLines")).
Proof. destruct (pm !! lit "newLines"); reflexivity. Qed.

Lemma is_none_true (v : json) : is_none v = true -> v = JNull.
Proof. destruct v; simpl; congruence. Qed.

(** On one descriptor [p] the loop of the MultiEdit branch and
    [extract_line_numbers] compute the same thing, exceptions included. *)
Lemma sub_edit_lines_first (d tr : dict) (p : json) (rest patches : list json) (i : nat) :
  d !! lit "tool_response" = Some (JDict tr) ->
  tr !! lit "structuredPatch" = Some (JList (p :: rest)) ->
  patches !! i = Some p ->
  hook.sub_edit_lines (JList patches) i = hook.extract_line_numbers (JDict d).
Proof.
  intros Hd Htr Hi. unfold hook.sub_edit_lines, hook.extract_line_numbers.
  rewrite py_get_dict, Hd. simpl. rewrite Htr. simpl.
  assert (Hlt : (i <? length patches)%nat = true).
  { apply Nat.ltb_lt. eapply lookup_lt_Some; eassumption. }
  rewrite Hlt, Hi.
  destruct p as [| | | | |pm]; try reflexivity.
  simpl. destruct (is_none (default JNull (pm !! lit "newStart"))) eqn:Hn; simpl.
  - apply is_none_true in Hn. rewrite Hn. reflexivity.
  - rewrite range_end_default. reflexivity.
Qed.

(** C10. For every structured-patch descriptor, the range computed inline
    by the MultiEdit branch (absent count read as 1) equals the range
    computed by the resolver of the Edit branch (absent count read as 0):
    with start [s] and count [n] both give (s, s + max(n - 1, 0)), and
    with the count absent both give (s, s). *)
Theorem multiedit_range_agrees_with_resolver
    (d tr : dict) (p : json) (rest patches : list json) (i : nat) :
  d !! lit "tool_response" = Some (JDict tr) ->
  tr !! lit "structuredPatch" = Some (JList (p :: rest)) ->
  patches !! i = Some p ->
  hook.sub_edit_lines (JList patches) i = hook.extract_line_numbers (JDict d)
  /\ (forall pm s n,
        p = JDict pm ->
        pm !! lit "newStart" = Some (JInt s) ->
        pm !! lit "newLines" = Some (JInt n) ->
        hook.extract_line_numbers (JDict d)
        = Ok (JInt s, JInt (s + Z.max (n - 1) 0)))
  /\ (forall pm s,
        p = JDict pm ->
        pm !! lit "newStart" = Some (JInt s) ->
        pm !! lit "newLines" = None ->
        hook.extract_line_numbers (JDict d) = Ok (JInt s, JInt s)).
Proof.
  intros Hd Htr Hi. split; [|split].
  - eapply sub_edit_lines_first; eassumption.
  - intros pm s n -> Hs Hn.
    eapply extract_line_numbers_first; eassumption.
  - intros pm s -> Hs Hn.
    unfold hook.extract_line_numbers.
    rewrite py_get_dict, Hd. simpl. rewrite Htr. simpl.
    rewrite Hs, Hn. simpl. do 3 f_equal. lia.
Qed.

Lemma multiedit_range_agrees_with_resolver_witness :
  hook.sub_edit_lines (JList [descriptor 3 1; descriptor_no_count 7]) 1
  = hook.extract_line_numbers (patched [descriptor_no_count 7])
  /\ hook.extract_line_numbers (patched [descriptor_no_count 7])
     = Ok (JInt 7, JInt 7).
Proof.
  split.
  - eapply (multiedit_range_agrees_with_resolver _ _); reflexivity.
  - eapply (multiedit_range_agrees_with_resolver
              _ _ (descriptor_no_count 7) [] [descriptor_no_count 7] 0);
      reflexivity.
Defined.

(** ** DiffSummarizer *)

Lemma truncate_short (s : str) :
  (length s <= hook.MAX_LEN)%nat -> hook.truncate s = s.
Proof.
  intros H. unfold hook.truncate.
  destruct (hook.MAX_LEN <? length s)%nat eqn:E; [|reflexivity].
  apply Nat.ltb_lt in E. lia.
Qed.

Lemma truncate_long (s : str) :
  (hook.MAX_LEN < length s)%nat ->
  hook.truncate s = take hook.MAX_LEN s ++ [hook.ELLIPSIS].
Proof.
  intros H. unfold hook.truncate.
  apply Nat.ltb_lt in H. rewrite H. reflexivity.
Qed.

Lemma truthy_str (s : str) : truthy (JStr s) = negb (bool_decide (s = [])).
Proof. destruct s; reflexivity. Qed.

Lemma compact_change_summary_added (n : str) :
  n <> [] ->
  hook.compact_change_summary (JStr []) (JStr n)
  = Ok (lit "added: " ++ replace_nl (take hook.MAX_LEN n)).
Proof. destruct n; [congruence | reflexivity]. Qed.

Lemma compact_change_summary_removed (o : str) :
  o <> [] ->
  hook.compact_change_summary (JStr o) (JStr [])
  = Ok (lit "removed: " ++ replace_nl (take hook.MAX_LEN o)).
Proof. destruct o; [congruence | reflexivity]. Qed.

Lemma compact_change_summary_changed (o n : str) :
  (o = [] <-> n = []) ->
  hook.compact_change_summary (JStr o) (JStr n)
  = let c := common_prefix (flatten o) (flatten n) in
    if (20 <? c)%nat then
      Ok (hook.truncate (hook.ELLIPSIS :: drop (c - 10) (flatten o))
          ++ [SP; hook.ARROW; SP]
          ++ hook.truncate (hook.ELLIPSIS :: drop (c - 10) (flatten n)))
    else
      Ok (hook.truncate (flatten o) ++ [SP; hook.ARROW; SP]
          ++ hook.truncate (flatten n)).
Proof.
  intros Hiff. unfold hook.compact_change_summary, flatten.
  assert (Hb : truthy (JStr o) = truthy (JStr n)).
  { destruct o, n; simpl; try reflexivity.
    - destruct Hiff as [H _]. specialize (H eq_refl). discriminate.
    - destruct Hiff as [_ H]. specialize (H eq_refl). discriminate. }
  rewrite Hb. destruct (truthy (JStr n)); simpl;
    rewrite Nat.max_0_r;
    destruct (20 <? common_prefix _ _)%nat; reflexivity.
Qed.

(** C6 (as amended). With preview bound 200 the summarizer returns
    "added: " plus the first 200 characters of the new text with newlines
    turned into spaces (not trimmed) when the old text is empty and the new
    is not; "removed: " plus the same of the old text in the opposite case;
    and otherwise joins the two displayed sides with an arrow, where a side
    is its flattened text, or, when the common prefix [c] of the flattened
    texts exceeds 20, an ellipsis followed by the flattened text from
    position [c - 10]; a displayed side longer than 200 is cut to 200
    characters plus an ellipsis, and a side whose flattened form is shorter
    than 200 is never cut. *)
Theorem diff_summarizer_policy (o n : str) :
  (o = [] -> n <> [] ->
   hook.compact_change_summary (JStr o) (JStr n)
   = Ok (lit "added: " ++ replace_nl (take 200 n)))
  /\ (o <> [] -> n = [] ->
      hook.compact_change_summary (JStr o) (JStr n)
      = Ok (lit "removed: " ++ replace_nl (take 200 o)))
  /\ ((o = [] <-> n = []) ->
      let c := common_prefix (flatten o) (flatten n) in
      let side (flat : str) :=
        if (20 <? c)%nat then hook.ELLIPSIS :: drop (c - 10) flat else flat in
      let shown (flat : str) :=
        if (200 <? length (side flat))%nat
        then take 200 (side flat) ++ [hook.ELLIPSIS]
        else side flat in
      hook.compact_change_summary (JStr o) (JStr n)
      = Ok (shown (flatten o) ++ [SP; hook.ARROW; SP] ++ shown (flatten n))
      /\ ((length (flatten o) < 200)%nat -> shown (flatten o) = side (flatten o))
      /\ ((length (flatten n) < 200)%nat -> shown (flatten n) = side (flatten n)))
  /\ ((length n < 200)%nat -> take 200 n = n)
  /\ ((length o < 200)%nat -> take 200 o = o).
Proof.
  split; [|split; [|split; [|split]]].
  - intros -> Hn. apply compact_change_summary_added. exact Hn.
  - intros Ho ->. apply compact_change_summary_removed. exact Ho.
  - intros Hiff. cbv zeta.
    assert (Hside : forall flat : str,
               (length flat < 200)%nat ->
               (200 <? length
                  (if (20 <? common_prefix (flatten o) (flatten n))%nat
                   then hook.ELLIPSIS
                        :: drop (common_prefix (flatten o) (flatten n) - 10) flat
                   else flat))%nat = false).
    { intros flat Hlen. apply Nat.ltb_ge.
      destruct (20 <? common_prefix (flatten o) (flatten n))%nat eqn:E.
      - apply Nat.ltb_lt in E. simpl. rewrite length_drop. lia.
      - lia. }
    split; [|split].
    + rewrite compact_change_summary_changed by exact Hiff. cbv zeta.
      unfold hook.truncate, hook.MAX_LEN.
      destruct (20 <? common_prefix (flatten o) (flatten n))%nat; reflexivity.
    + intros Hlen. rewrite Hside by exact Hlen. reflexivity.
    + intros Hlen. rewrite Hside by exact Hlen. reflexivity.
  - intros Hlen. apply take_ge. lia.
  - intros Hlen. apply take_ge. lia.
Qed.

Lemma diff_summarizer_policy_witness :
  hook.compact_change_summary (JStr []) (jstr "hello") = Ok (lit "added: hello")
  /\ hook.compact_change_summary (jstr "hello") (JStr []) = Ok (lit "removed: hello").
Proof.
  split.
  - apply (diff_summarizer_policy [] (lit "hello")); [reflexivity | discriminate].
  - apply (diff_summarizer_policy (lit "hello") []); [discriminate | reflexivity].
Defined.

(** C6, the claim as written fails: the added branch does not trim, so
    what follows "added: " is not the flattened (trimmed) new text. *)
Lemma diff_summarizer_added_untrimmed_counterexample :
  hook.compact_change_summary (JStr []) (jstr " x") = Ok (lit "added:  x")
  /\ hook.compact_change_summary (JStr []) (jstr " x")
     <> Ok (lit "added: " ++ flatten (lit " x")).
Proof.
  split; [reflexivity|].
  intros H. vm_compute in H. discriminate H.
Qed.

(** ** ContentFingerprinter *)

Lemma starts_space_collapse (s : str) :
  starts_space (collapse_ws s) = starts_space s.
Proof.
  induction s as [|c s IH]; [reflexivity|].
  simpl. destruct (is_space c) eqn:Ec.
  - destruct (starts_space s) eqn:Es; [congruence | reflexivity].
  - simpl. exact Ec.
Qed.

(** Splitting does not see the difference between a text and its
    whitespace-collapsed form. *)
Lemma str_split_collapse (s : str) :
  str_split (collapse_ws s) = str_split s.
Proof.
  induction s as [|c s IH]; [reflexivity|].
  simpl. destruct (is_space c) eqn:Ec.
  - destruct (starts_space s) eqn:Es; [exact IH|].
    simpl. replace (is_space SP) with true by reflexivity. exact IH.
  - simpl. rewrite Ec, starts_space_collapse, IH. reflexivity.
Qed.

Lemma collapse_ws_nil (s : str) : collapse_ws s = [] -> s = [].
Proof.
  induction s as [|c s IH]; [reflexivity|].
  simpl. destruct (is_space c); [|discriminate].
  destruct (starts_space s) eqn:Es; [|discriminate].
  intros H. apply IH in H. subst s. discriminate Es.
Qed.

Lemma utf8_encode_Forall (s : str) :
  encodable s <-> Forall (fun c => is_Some (utf8_char c)) s.
Proof.
  unfold encodable. induction s as [|c s IH]; simpl.
  - split; [constructor | eauto].
  - split.
    + intros [b Hb]. destruct (utf8_char c) eqn:Ec; [|discriminate].
      destruct (utf8_encode s) eqn:Es; [|discriminate].
      constructor; [eauto | apply IH; eauto].
    + intros H. inversion H as [|? ? [b Hb] Hs]; subst.
      apply IH in Hs as [bs Hbs]. rewrite Hb, Hbs. eauto.
Qed.

Lemma str_split_Forall (P : char -> Prop) (s : str) :
  Forall P s -> Forall (Forall P) (str_split s).
Proof.
  induction s as [|c s IH]; intros H; [constructor|].
  inversion H as [|? ? Hc Hs]; subst. specialize (IH Hs). simpl.
  destruct (is_space c); [exact IH|].
  destruct (starts_space s).
  - constructor; [repeat constructor; exact Hc | exact IH].
  - destruct (str_split s) as [|w ws].
    + repeat constructor. exact Hc.
    + inversion IH; subst. constructor; [constructor|]; assumption.
Qed.

Lemma join_sp_Forall (P : char -> Prop) (ws : list str) :
  P SP -> Forall (Forall P) ws -> Forall P (join_sp ws).
Proof.
  intros Hsp. induction ws as [|w ws IH]; intros H; [constructor|].
  inversion H as [|? ? Hw Hws]; subst. specialize (IH Hws).
  simpl. destruct ws as [|w' ws']; [exact Hw|].
  apply Forall_app. split; [exact Hw|]. constructor; assumption.
Qed.

Lemma normalized_encodable (s : str) :
  encodable s -> encodable (join_sp (str_split s)).
Proof.
  rewrite !utf8_encode_Forall. intros H.
  apply join_sp_Forall; [vm_compute; eauto|].
  apply str_split_Forall. exact H.
Qed.

Lemma take_encodable (k : nat) (s : str) : encodable s -> encodable (take k s).
Proof. rewrite !utf8_encode_Forall. apply Forall_take. Qed.

Lemma hex_digit_is_hex (x : N) : is_hex (SHA256.hex_digit (N.land x 15)) = true.
Proof.
  assert (H : N.land x 15 < 16).
  { change 15 with (N.ones 4). rewrite N.land_ones. apply N.mod_lt. discriminate. }
  unfold SHA256.hex_digit, is_hex.
  destruct (N.land x 15 <? 10) eqn:E.
  - apply N.ltb_lt in E.
    apply orb_true_iff. left. apply andb_true_iff.
    split; apply N.leb_le; lia.
  - apply N.ltb_ge in E.
    apply orb_true_iff. right. apply andb_true_iff.
    split; apply N.leb_le; lia.
Qed.

Lemma hex8_is_hex (w : N) : forallb is_hex (SHA256.hex8 w) = true.
Proof.
  unfold SHA256.hex8. cbn [List.map forallb]. rewrite !hex_digit_is_hex. reflexivity.
Qed.

Lemma hexdigest_length (msg : list N) : length (SHA256.hexdigest msg) = 64%nat.
Proof.
  unfold SHA256.hexdigest.
  destruct (SHA256.blocks _ _ _). rewrite !length_app. reflexivity.
Qed.

Lemma hexdigest_is_hex (msg : list N) :
  forallb is_hex (SHA256.hexdigest msg) = true.
Proof.
  unfold SHA256.hexdigest.
  destruct (SHA256.blocks _ _ _). rewrite !forallb_app, !hex8_is_hex. reflexivity.
Qed.

(** The fingerprint of a non-empty encodable text. *)
Lemma content_hash_Ok (t : str) :
  t <> [] -> encodable t ->
  exists bytes,
    utf8_encode (join_sp (str_split t)) = Some bytes
    /\ hook.content_hash (JStr t) = Ok (take 16 (SHA256.hexdigest bytes)).
Proof.
  intros Ht Henc. apply normalized_encodable in Henc as [bytes Hb].
  exists bytes. split; [exact Hb|].
  unfold hook.content_hash. destruct t; [congruence|].
  cbn [truthy negb as_str mbind exc_bind]. rewrite Hb. reflexivity.
Qed.

(** C4. Texts that are equal after collapsing whitespace runs to single
    spaces have equal fingerprints; the empty text has the empty
    fingerprint; and the fingerprint of any other (encodable) text is 16
    hexadecimal characters long. *)
Theorem content_fingerprint_properties :
  (forall t1 t2 : str,
      collapse_ws t1 = collapse_ws t2 ->
      hook.content_hash (JStr t1) = hook.content_hash (JStr t2))
  /\ hook.content_hash (JStr []) = Ok []
  /\ (forall t : str,
        t <> [] -> encodable t ->
        exists h, hook.content_hash (JStr t) = Ok h
                  /\ length h = 16%nat /\ forallb is_hex h = true).
Proof.
  split; [|split].
  - intros t1 t2 H.
    assert (Hs : str_split t1 = str_split t2).
    { rewrite <- (str_split_collapse t1), <- (str_split_collapse t2), H.
      reflexivity. }
    unfold hook.content_hash.
    destruct t1 as [|c1 t1], t2 as [|c2 t2].
    + reflexivity.
    + symmetry in H. apply collapse_ws_nil in H. discriminate.
    + apply collapse_ws_nil in H. discriminate.
    + cbn [truthy negb as_str mbind exc_bind]. rewrite Hs. reflexivity.
  - reflexivity.
  - intros t Ht Henc.
    destruct (content_hash_Ok t Ht Henc) as (bytes & _ & Hh).
    exists (take 16 (SHA256.hexdigest bytes)). split; [exact Hh|]. split.
    + rewrite length_take, hexdigest_length. reflexivity.
    + apply forallb_forall. intros c Hc.
      pose proof (hexdigest_is_hex bytes) as Hall.
      rewrite forallb_forall in Hall. apply Hall.
      apply list_elem_of_In. apply list_elem_of_In in Hc.
      eapply subseteq_take. exact Hc.
Qed.

Lemma content_fingerprint_properties_witness :
  hook.content_hash (JStr (lit "a  b" ++ [NL] ++ lit "c"))
  = hook.content_hash (jstr "a b c")
  /\ exists h, hook.content_hash (jstr "a b c") = Ok h
               /\ length h = 16%nat /\ forallb is_hex h = true.
Proof.
  destruct content_fingerprint_properties as (Heq & _ & Hlen).
  split.
  - apply Heq. reflexivity.
  - apply Hlen; [discriminate | eexists; reflexivity].
Defined.

(** ** EditExtractor *)

Section extractor.

Variable py_repr : json -> str.

Lemma mapM_exc_length {A B} (f : A -> exc B) (l : list A) (r : list B) :
  mapM f l = Ok r -> length r = length l.
Proof.
  revert r. induction l as [|x l IH]; intros r H; simpl in H.
  - inversion H. reflexivity.
  - apply bind_Ok in H as (y & _ & H). apply bind_Ok in H as (k & Hk & H).
    inversion H. simpl. f_equal. apply IH. exact Hk.
Qed.

Lemma enumerate_length {A} (l : list A) : length (enumerate l) = length l.
Proof. unfold enumerate. rewrite length_combine, length_seq. lia. Qed.

(** C8. A Write event yields exactly one record, with line_start 1,
    line_end the number of newlines of the content plus 1 (null when the
    content is empty), the fingerprint of the first 500 characters of the
    content, and the summary "created file (n lines)", or "created file"
    when there is no line count; content with 3 newlines gives lines 1 to 4. *)
Theorem write_event_record (d : dict) (path content project_dir : str) :
  let tool_input := default (JDict ∅) (d !! lit "tool_input") in
  d !! lit "tool_name" = Some (jstr "Write") ->
  hook.input_path tool_input = Ok (JStr path) ->
  hook.write_content tool_input = Ok (JStr content) ->
  encodable (take 500 content) ->
  exists e,
    hook.extract_edits py_repr (JDict d) project_dir = Ok [e]
    /\ hook.relativize_path (JStr path) project_dir = Ok (hook.Edit.file e)
    /\ hook.Edit.line_start e = JInt 1
    /\ hook.Edit.line_end e
       = match content with
         | [] => JNull
         | _ => JInt (Z.of_nat (count_nl content) + 1)
         end
    /\ hook.content_hash (JStr (take 500 content)) = Ok (hook.Edit.content_hash e)
    /\ hook.Edit.change e
       = match content with
         | [] => lit "created file"
         | _ => lit "created file (" ++ dec_N (N.of_nat (count_nl content) + 1)
                ++ lit " lines)"
         end
    /\ (count_nl content = 3%nat ->
        hook.Edit.line_start e = JInt 1 /\ hook.Edit.line_end e = JInt 4).
Proof.
  intros tool_input Hname Hpath Hcontent Henc.
  assert (Hrel : exists f, hook.relativize_path (JStr path) project_dir = Ok f).
  { unfold hook.relativize_path. simpl. destruct (pathlib.relative_to _ _); eauto. }
  destruct Hrel as [f Hrel].
  assert (Hh : exists h, hook.content_hash (JStr (take 500 content)) = Ok h).
  { destruct (take 500 content) as [|c0 t0] eqn:Et.
    - exists []. reflexivity.
    - destruct (content_hash_Ok (c0 :: t0)) as (b & _ & Hb);
        [discriminate | exact Henc | eauto]. }
  destruct Hh as [h Hh].
  unfold hook.extract_edits. rewrite !py_get_dict. simpl.
  fold tool_input. rewrite Hname, Hpath. simpl. rewrite Hrel. simpl.
  replace (str_eqb (jstr "Write") (lit "Edit")) with false by reflexivity.
  replace (str_eqb (jstr "Write") (lit "Write")) with true by reflexivity.
  rewrite Hcontent. simpl. rewrite Hh. simpl.
  eexists. split; [reflexivity|]. simpl.
  split; [reflexivity|]. split; [reflexivity|].
  assert (Hn : N.of_nat (count_nl content + 1) = N.of_nat (count_nl content) + 1)
    by lia.
  assert (Hz : Z.of_nat (count_nl content + 1) = (Z.of_nat (count_nl content) + 1)%Z)
    by lia.
  destruct content as [|c0 content']; simpl.
  - split; [reflexivity|]. split; [reflexivity|]. split; [reflexivity|].
    intros H3. discriminate H3.
  - rewrite Hn, Hz.
    split; [reflexivity|]. split; [reflexivity|]. split; [reflexivity|].
    intros H3. split; [reflexivity|].
    rewrite H3. reflexivity.
Qed.

Lemma str_eqb_true (v : json) (s : str) : str_eqb v s = true -> v = JStr s.
Proof.
  destruct v; simpl; try discriminate. intros H. apply bool_decide_eq_true in H. congruence.
Qed.

Lemma extract_edits_count (d : dict) (project_dir : str) (edits : list hook.Edit.t) :
  let tool_name := default (JStr []) (d !! lit "tool_name") in
  let tool_input := default (JDict ∅) (d !! lit "tool_input") in
  hook.extract_edits py_repr (JDict d) project_dir = Ok edits ->
  if str_eqb tool_name (lit "MultiEdit") then
    exists subs items,
      hook.sub_edits tool_input = Ok subs /\ py_iter subs = Ok items
      /\ length edits = length items
  else length edits = 1%nat.
Proof.
  intros tool_name tool_input H.
  unfold hook.extract_edits in H. rewrite !py_get_dict in H.
  cbn [mbind exc_bind] in H. fold tool_name tool_input in H.
  exc_inv H.
  destruct (str_eqb tool_name (lit "Edit")) eqn:E1.
  { apply str_eqb_true in E1. rewrite E1.
    replace (str_eqb (JStr (lit "Edit")) (lit "MultiEdit")) with false by reflexivity.
    exc_inv H. destruct v3. cbn in H. exc_inv H. inversion H. reflexivity. }
  destruct (str_eqb tool_name (lit "Write")) eqn:E2.
  { apply str_eqb_true in E2. rewrite E2.
    replace (str_eqb (JStr (lit "Write")) (lit "MultiEdit")) with false by reflexivity.
    exc_inv H. inversion H. reflexivity. }
  destruct (str_eqb tool_name (lit "MultiEdit")) eqn:E3.
  - exc_inv H. 
    exists v1, v3. split; [assumption|]. split; [assumption|].
    apply mapM_exc_length in H. rewrite H, enumerate_length. reflexivity.
  - inversion H. reflexivity.
Qed.

Lemma relativize_path_str (p project_dir : str) :
  exists f, hook.relativize_path (JStr p) project_dir = Ok f.
Proof.
  unfold hook.relativize_path. cbn [as_str mbind exc_bind].
  destruct (pathlib.relative_to _ _); eauto.
Qed.

(** With no path named, nothing is relative to the project root unless the
    root is the current directory. *)
Lemma relativize_path_empty (project_dir : str) :
  pathlib.to_str (pathlib.Path project_dir) <> lit "." ->
  hook.relativize_path (JStr []) project_dir = Ok [].
Proof.
  intros Hroot. unfold hook.relativize_path. cbn [as_str mbind exc_bind].
  destruct (pathlib.relative_to _ _) as [r|] eqn:E; [|reflexivity].
  exfalso. apply Hroot.
  unfold pathlib.relative_to in E.
  destruct (bool_decide _ && bool_decide _) eqn:B; [|discriminate].
  apply andb_true_iff in B as [B1 B2].
  apply bool_decide_eq_true in B1. apply bool_decide_eq_true in B2.
  change (pathlib.parts (pathlib.Path [])) with (@nil str) in B2.
  change (pathlib.root (pathlib.Path [])) with (@nil char) in B1.
  rewrite take_nil in B2. unfold pathlib.to_str. rewrite <- B1, <- B2.
  reflexivity.
Qed.

(** C2 (as amended). An event that the extractor accepts yields exactly one
    record unless its tool is MultiEdit, which yields one record per
    sub-edit (none when there is no sub-edit). An event naming an
    unrecognized tool (with a string, or no, file path) yields exactly one
    record with null line range, empty fingerprint, summary
    "unknown tool: <name>", and as file the relativized path, or
    "unknown:<name>" when that is empty: in particular when no file path is
    supplied and the project root is not the current directory. *)
Theorem extractor_record_count (d : dict) (project_dir : str) :
  let tool_name := default (JStr []) (d !! lit "tool_name") in
  let tool_input := default (JDict ∅) (d !! lit "tool_input") in
  (forall edits,
      hook.extract_edits py_repr (JDict d) project_dir = Ok edits ->
      if str_eqb tool_name (lit "MultiEdit") then
        exists subs items,
          hook.sub_edits tool_input = Ok subs /\ py_iter subs = Ok items
          /\ length edits = length items
      else length edits = 1%nat)
  /\ (str_eqb tool_name (lit "Edit") = false ->
      str_eqb tool_name (lit "Write") = false ->
      str_eqb tool_name (lit "MultiEdit") = false ->
      forall path,
        hook.input_path tool_input = Ok (JStr path) ->
        exists file,
          hook.relativize_path (JStr path) project_dir = Ok file
          /\ hook.extract_edits py_repr (JDict d) project_dir
             = Ok [ {| hook.Edit.file :=
                         match file with
                         | [] => lit "unknown:" ++ hook.py_str py_repr tool_name
                         | _ => file
                         end;
                       hook.Edit.line_start := JNull;
                       hook.Edit.line_end := JNull;
                       hook.Edit.content_hash := [];
                       hook.Edit.change :=
                         lit "unknown tool: " ++ hook.py_str py_repr tool_name |} ]
          /\ (path = [] ->
              pathlib.to_str (pathlib.Path project_dir) <> lit "." ->
              file = [])).
Proof.
  intros tool_name tool_input. split.
  - intros edits H. exact (extract_edits_count d project_dir edits H).
  - intros E1 E2 E3 path Hpath.
    destruct (relativize_path_str path project_dir) as [file Hfile].
    exists file. split; [exact Hfile|]. split.
    + unfold hook.extract_edits. rewrite !py_get_dict.
      cbn [mbind exc_bind]. fold tool_name tool_input.
      rewrite Hpath. cbn [mbind exc_bind]. rewrite Hfile.
      cbn [mbind exc_bind]. rewrite E1, E2, E3. reflexivity.
    + intros -> Hroot. rewrite relativize_path_empty in Hfile by exact Hroot.
      congruence.
Qed.

End extractor.

Lemma write_event_record_witness :
  exists e,
    hook.extract_edits no_repr write_example (lit "/proj") = Ok [e]
    /\ hook.Edit.file e = lit "src/a.py"
    /\ hook.Edit.line_start e = JInt 1
    /\ hook.Edit.line_end e = JInt 4
    /\ hook.Edit.change e = lit "created file (4 lines)".
Proof.
  destruct (write_event_record no_repr
              (list_to_map
                 [(lit "tool_name", jstr "Write");
                  (lit "tool_input",
                   obj [("file_path"%string, jstr "/proj/src/a.py");
                        ("content"%string,
                         JStr (lit "a" ++ [NL] ++ lit "b" ++ [NL] ++ lit "c" ++ [NL]))])])
              (lit "/proj/src/a.py")
              (lit "a" ++ [NL] ++ lit "b" ++ [NL] ++ lit "c" ++ [NL])
              (lit "/proj"))
    as (e & He & Hfile & Hstart & Hend & _ & Hchange & _).
  - reflexivity.
  - reflexivity.
  - reflexivity.
  - eexists; reflexivity.
  - exists e. split; [exact He|]. split.
    + assert (Hr : hook.relativize_path (jstr "/proj/src/a.py") (lit "/proj")
                   = Ok (lit "src/a.py")) by reflexivity.
      unfold jstr in Hr. rewrite Hr in Hfile. congruence.
    + split; [exact Hstart|]. split; [exact Hend | exact Hchange].
Defined.

(** C2, the claim as written fails: a MultiEdit event without sub-edits
    yields no record at all; and an unrecognized tool with no file path
    gets the file "." (not a name embedding the tool) when the project
    root is the current directory. *)
Lemma extractor_no_record_counterexample :
  (forall py_repr,
      hook.extract_edits py_repr multiedit_empty_example (lit "/proj") = Ok [])
  /\ (forall py_repr,
        hook.extract_edits py_repr unknown_example (lit ".")
        = Ok [ {| hook.Edit.file := lit ".";
                  hook.Edit.line_start := JNull;
                  hook.Edit.line_end := JNull;
                  hook.Edit.content_hash := [];
                  hook.Edit.change := lit "unknown tool: NotebookEdit" |} ]).
Proof.
  split; intros py_repr; vm_compute; reflexivity.
Qed.

Lemma extractor_record_count_witness :
  exists file,
    hook.relativize_path (JStr []) (lit "/proj") = Ok file
    /\ hook.extract_edits no_repr unknown_example (lit "/proj")
       = Ok [ {| hook.Edit.file := lit "unknown:NotebookEdit";
                 hook.Edit.line_start := JNull;
                 hook.Edit.line_end := JNull;
                 hook.Edit.content_hash := [];
                 hook.Edit.change := lit "unknown tool: NotebookEdit" |} ].
Proof.
  destruct (extractor_record_count no_repr
              (list_to_map [(lit "tool_name", jstr "NotebookEdit")]) (lit "/proj"))
    as [_ H].
  destruct (H eq_refl eq_refl eq_refl [] eq_refl) as (file & Hfile & Hrec & Hempty).
  exists file. split; [exact Hfile|].
  rewrite (Hempty eq_refl) in Hrec by (vm_compute; discriminate).
  exact Hrec.
Defined.

(** ** The tool-event handler *)

Section handler.

Variable py_repr : json -> str.

Lemma compact_change_summary_str (o n : str) :
  exists c, hook.compact_change_summary (JStr o) (JStr n) = Ok c.
Proof.
  unfold hook.compact_change_summary.
  destruct (negb (truthy (JStr o)) && truthy (JStr n)); [eexists; reflexivity|].
  destruct (truthy (JStr o) && negb (truthy (JStr n))); [eexists; reflexivity|].
  cbn [as_str mbind exc_bind].
  destruct (20 <? _)%nat; eexists; reflexivity.
Qed.

Lemma content_hash_encodable (v : json) :
  is_encodable_str v = true -> exists h, hook.content_hash v = Ok h.
Proof.
  destruct v as [| | |s| |]; try discriminate. simpl.
  destruct (utf8_encode s) eqn:E; [|discriminate]. intros _.
  destruct s as [|c s]; [exists []; reflexivity|].
  destruct (content_hash_Ok (c :: s)) as (b & _ & Hb);
    [discriminate | unfold encodable; rewrite E; eauto | eauto].
Qed.

Lemma extract_line_numbers_ok (d : dict) :
  response_ok d = true -> exists r, hook.extract_line_numbers (JDict d) = Ok r.
Proof.
  unfold response_ok, hook.extract_line_numbers. rewrite py_get_dict.
  destruct (d !! lit "tool_response") as [tr|]; [|eexists; reflexivity].
  destruct tr as [| | | | |tr]; try discriminate.
  cbn [from_option id mbind exc_bind]. rewrite py_get_dict.
  destruct (tr !! lit "structuredPatch") as [ps|]; [|eexists; reflexivity].
  destruct ps as [| | | |ps|]; try discriminate.
  destruct ps as [|p ps]; [eexists; reflexivity|].
  unfold patch_ok. destruct p as [| | | | |pm]; try discriminate.
  simpl.
  destruct (pm !! lit "newStart") as [start|]; [|eexists; reflexivity].
  destruct start; try discriminate; [eexists; reflexivity|].
  simpl. destruct (pm !! lit "newLines") as [n|]; [|eexists; reflexivity].
  destruct n; try discriminate. eexists; reflexivity.
Qed.

Lemma edit_event_extracts (d : dict) (project_dir : str) :
  edit_event_ok (JDict d) = true ->
  exists ed, hook.extract_edits py_repr (JDict d) project_dir = Ok [ed].
Proof.
  unfold edit_event_ok. intros H.
  apply andb_true_iff in H as [H Hresp]. apply andb_true_iff in H as [Hname H].
  destruct (d !! lit "tool_input") as [ti|] eqn:Hti; [|discriminate].
  destruct ti as [| | | | |ti]; try discriminate.
  apply andb_true_iff in H as [H Hnew]. apply andb_true_iff in H as [Hpath Hold].
  destruct (hook.input_path (JDict ti)) as [named|] eqn:Hnamed; [|discriminate].
  destruct named as [| | |path| |]; try discriminate.
  destruct (relativize_path_str path project_dir) as [f Hf].
  destruct (extract_line_numbers_ok d Hresp) as [[ls le] Hlines].
  destruct (content_hash_encodable _ Hnew) as [h Hh].
  destruct (default (JStr []) (ti !! lit "old_string")) as [| | |o| |] eqn:Ho;
    try discriminate.
  destruct (default (JStr []) (ti !! lit "new_string")) as [| | |n| |] eqn:Hn;
    try discriminate.
  destruct (compact_change_summary_str o n) as [c Hc].
  unfold hook.extract_edits. rewrite !py_get_dict.
  cbn [mbind exc_bind]. rewrite Hti. cbn [from_option id].
  rewrite Hnamed. cbn [mbind exc_bind]. rewrite Hf. cbn [mbind exc_bind].
  rewrite Hname. rewrite !py_get_dict. cbn [mbind exc_bind].
  rewrite Hlines. cbn [mbind exc_bind]. rewrite Ho, Hn, Hh.
  cbn [mbind exc_bind]. rewrite Hc. cbn [mbind exc_bind].
  eexists. reflexivity.
Qed.

Lemma extract_edits_input_dict (d : dict) (project_dir : str) edits :
  hook.extract_edits py_repr (JDict d) project_dir = Ok edits ->
  exists ti, default (JDict ∅) (d !! lit "tool_input") = JDict ti.
Proof.
  intros H. unfold hook.extract_edits in H. rewrite !py_get_dict in H.
  cbn [mbind exc_bind] in H. apply bind_Ok in H as (named & Hnamed & _).
  unfold hook.input_path in Hnamed. apply bind_Ok in Hnamed as (fp & Hfp & _).
  apply py_get_Ok in Hfp as (ti & Hti & _). eauto.
Qed.

Lemma trace_reference_dict (d ps : dict) :
  exists t, hook.trace_reference py_repr (JDict d) (JDict ps) = Ok t.
Proof.
  unfold hook.trace_reference. rewrite !py_get_dict. cbn [mbind exc_bind].
  destruct (truthy _); eexists; reflexivity.
Qed.

Lemma session_identifier_dict (d ps : dict) :
  exists t, hook.session_identifier (JDict d) (JDict ps) = Ok t.
Proof.
  unfold hook.session_identifier. rewrite !py_get_dict. eexists; reflexivity.
Qed.

(** What the handler does with an event it can extract edits from, once
    the session file is determined and can be appended to. *)
Lemma main_appends (e : env) (w : fs) (d ps : dict)
    (edits : list hook.Edit.t) (name : str) :
  blamebot_is_dir w = true ->
  mkdir_ok w = true ->
  hook.extract_edits py_repr (JDict d) (project_dir e) = Ok edits ->
  hook.load_prompt_state w = JDict ps ->
  hook.determine_session_file e (JDict ps) = Ok (JStr name) ->
  can_append w name = true ->
  exists now tool author session trace,
    hook.main py_repr e (InputJson (JDict d)) w
    = Ok (set_log_files w
            (<[name := read_log w name
                       ++ List.map
                            (hook.make_record now
                               (default (JStr []) (ps !! lit "prompt"))
                               tool author session trace) edits]>
               (log_files w))).
Proof.
  intros Hdir Hmk Hex Hps Hname Happ.
  destruct (extract_edits_input_dict _ _ _ Hex) as [ti Hti].
  destruct (trace_reference_dict d ps) as [trace Htrace].
  destruct (session_identifier_dict d ps) as [session Hsession].
  unfold hook.main. rewrite Hdir, Hps. cbn [negb]. rewrite !py_get_dict.
  cbn [mbind exc_bind]. rewrite Hti. cbn [py_keys mbind exc_bind].
  rewrite Hname. cbn [as_str mbind exc_bind]. rewrite Hex.
  cbn [mbind exc_bind]. rewrite Htrace, Hsession. cbn [mbind exc_bind].
  rewrite Hmk, Happ. cbn [negb]. 
  do 5 eexists. reflexivity.
Qed.

(** The only way the handler changes the file system: lines are added at
    the end of one session file. *)
Lemma main_effect (e : env) (input : stdin) (w w' : fs) :
  hook.main py_repr e input w = Ok w' ->
  w' = w
  \/ exists name recs,
       w' = set_log_files w (<[name := read_log w name ++ recs]> (log_files w)).
Proof.
  unfold hook.main. intros H.
  destruct (blamebot_is_dir w); cbn [negb] in H; [|left; congruence].
  destruct input as [| |data]; [left; congruence | |].
  all: exc_inv H; destruct (mkdir_ok w); cbn [negb] in H; [|discriminate];
    match type of H with
    | (if can_append ?w0 ?n then _ else _) = _ => destruct (can_append w0 n)
    end; [|left; congruence];
    exc_inv H; inversion H; right; eauto.
Qed.

Lemma read_log_set (w : fs) (name other : str) (l : list Record_.t) :
  read_log (set_log_files w (<[name := l]> (log_files w))) other
  = if decide (name = other) then l else read_log w other.
Proof.
  unfold read_log, set_log_files. cbn [log_files].
  rewrite lookup_insert. destruct (decide (name = other)); reflexivity.
Qed.

(** C7. The tool-event handler never modifies the handoff slot when the
    slot names its session file, if any, by a bare file name (the file it
    appends to is then a file of the log directory, never the slot), and
    its only effect on a session log is to append: every file keeps its
    previous lines, in order, as a prefix of its new contents (and no file
    disappears). *)
Theorem handler_frame (e : env) (input : stdin) (w : fs) :
  let w' := hook.run py_repr e input w in
  (names_bare_file (state_file w) -> state_file w' = state_file w)
  /\ (forall name, exists appended,
        read_log w' name = read_log w name ++ appended)
  /\ (forall name lines,
        log_files w !! name = Some lines ->
        exists appended, log_files w' !! name = Some (lines ++ appended)).
Proof.
  cbv zeta. unfold hook.run.
  destruct (hook.main py_repr e input w) as [w'|] eqn:Hmain.
  - apply main_effect in Hmain as [->|(name & recs & ->)].
    + split; [intros _; reflexivity|]. split.
      * intros name. exists []. rewrite app_nil_r. reflexivity.
      * intros name lines H. exists []. rewrite app_nil_r. exact H.
    + split; [intros _; reflexivity|]. split.
      * intros other. rewrite read_log_set.
        destruct (decide (name = other)) as [->|].
        -- exists recs. reflexivity.
        -- exists []. rewrite app_nil_r. reflexivity.
      * intros other lines H. unfold set_log_files. cbn [log_files].
        rewrite lookup_insert. case_decide as Heq; [rewrite <- Heq in H|].
        -- unfold read_log. rewrite H. cbn [from_option id].
           exists recs. reflexivity.
        -- exists []. rewrite app_nil_r. exact H.
  - split; [intros _; reflexivity|]. split.
    + intros name. exists []. rewrite app_nil_r. reflexivity.
    + intros name lines H. exists []. rewrite app_nil_r. exact H.
Qed.

(** C1. If the handoff slot holds a pending instruction whose session file
    is [S] and whose sanitized prompt text is [p], then processing an Edit
    event appends exactly one record, to the session file [S] (every other
    file is left as it was), and the prompt field of that record is [p]. *)
Theorem edit_after_prompt (e : env) (w : fs) (d ps : dict) (S p : str) :
  blamebot_is_dir w = true ->
  mkdir_ok w = true ->
  can_append w S = true ->
  edit_event_ok (JDict d) = true ->
  state_file w = SlotJson (JDict ps) ->
  ps !! lit "session_file" = Some (JStr S) ->
  S <> [] ->
  ps !! lit "prompt" = Some (JStr p) ->
  let w' := hook.run py_repr e (InputJson (JDict d)) w in
  exists r,
    log_files w' = <[S := read_log w S ++ [r]]> (log_files w)
    /\ Record_.prompt r = JStr p
    /\ state_file w' = state_file w.
Proof.
  intros Hdir Hmk Happ Hev Hslot Hfile HS Hprompt. cbv zeta.
  destruct (edit_event_extracts d (project_dir e) Hev) as [ed Hex].
  assert (Hps : hook.load_prompt_state w = JDict ps).
  { unfold hook.load_prompt_state. rewrite Hslot. reflexivity. }
  assert (Hname : hook.determine_session_file e (JDict ps) = Ok (JStr S)).
  { unfold hook.determine_session_file. rewrite py_get_dict, Hfile.
    cbn [from_option id mbind exc_bind]. rewrite truthy_str.
    rewrite bool_decide_eq_false_2 by exact HS. reflexivity. }
  destruct (main_appends e w d ps [ed] S Hdir Hmk Hex Hps Hname Happ)
    as (now & tool & author & session & trace & Hmain).
  unfold hook.run. rewrite Hmain. rewrite Hprompt. cbn [from_option id List.map].
  eexists. split; [reflexivity|]. split; reflexivity.
Qed.

(** *** Orphan session files *)

Lemma lit_uint_no_dash (u : Decimal.uint) :
  Forall (fun c => c <> DASH) (lit (NilEmpty.string_of_uint u)).
Proof.
  induction u; simpl; constructor; try discriminate; assumption.
Qed.

Lemma dec_N_no_dash (n : N) : Forall (fun c => c <> DASH) (dec_N n).
Proof.
  unfold dec_N, NilZero.string_of_uint.
  destruct (N.to_uint n) eqn:E; try (rewrite <- E; apply lit_uint_no_dash).
  repeat constructor; discriminate.
Qed.

Lemma pad2_no_dash (n : N) : Forall (fun c => c <> DASH) (pad2 n).
Proof.
  unfold pad2. destruct (n <? 10).
  - apply Forall_app. split; [repeat constructor; discriminate|].
    apply dec_N_no_dash.
  - apply dec_N_no_dash.
Qed.

Lemma strftime_compact_no_dash (t : struct_time) :
  Forall (fun c => c <> DASH) (strftime_compact t).
Proof.
  unfold strftime_compact.
  repeat (apply Forall_app; split);
    try apply dec_N_no_dash; try apply pad2_no_dash;
    repeat constructor; discriminate.
Qed.

(** Two strings cut at the first occurrence of a separator agree piece by
    piece. *)
Lemma first_sep_inj (sep : char) (a b x y : str) :
  Forall (fun c => c <> sep) a ->
  Forall (fun c => c <> sep) b ->
  a ++ sep :: x = b ++ sep :: y ->
  a = b /\ x = y.
Proof.
  revert b. induction a as [|c a IH]; intros b Ha Hb H.
  - destruct b as [|c' b]; simpl in H.
    + inversion H. split; reflexivity.
    + inversion H; subst. inversion Hb; subst. congruence.
  - destruct b as [|c' b]; simpl in H.
    + inversion H; subst. inversion Ha; subst. congruence.
    + inversion H; subst. inversion Ha; subst. inversion Hb; subst.
      destruct (IH b) as [-> ->]; auto.
Qed.

Lemma random_choices_length (draws : nat -> nat) (population : str) (k : nat) :
  length (random_choices draws population k) = k.
Proof. unfold random_choices. rewrite length_map, length_seq. reflexivity. Qed.

(** An orphan name is the name of no session file that capture_prompt.py
    ever creates. *)
Lemma orphan_filename_fresh (e e' : env) :
  hook.orphan_filename e <> capture_prompt.session_filename e'.
Proof.
  unfold hook.orphan_filename, capture_prompt.session_filename. cbv zeta.
  intros H.
  change (lit "-") with [DASH] in H. cbn [app] in H.
  apply first_sep_inj in H as [_ H]; try apply strftime_compact_no_dash.
  apply app_inj_1 in H as [_ H]; [discriminate H|].
  rewrite !random_choices_length. reflexivity.
Qed.

Lemma determine_session_file_orphan (e : env) (w : fs) :
  state_file w = SlotAbsent \/ state_file w = SlotUnreadable
  \/ (exists ps, state_file w = SlotJson (JDict ps)
                 /\ truthy (default JNull (ps !! lit "session_file")) = false) ->
  exists ps,
    hook.load_prompt_state w = JDict ps
    /\ hook.determine_session_file e (JDict ps) = Ok (JStr (hook.orphan_filename e)).
Proof.
  unfold hook.load_prompt_state.
  intros [H|[H|(ps & H & Hfalsy)]]; rewrite H.
  - exists ∅. split; reflexivity.
  - exists ∅. split; reflexivity.
  - exists ps. split; [reflexivity|].
    unfold hook.determine_session_file. rewrite py_get_dict.
    cbn [mbind exc_bind]. rewrite Hfalsy. reflexivity.
Qed.

(** An orphan name is made anew for each event: two events get the same
    name only when they fall in the same second and draw the same six
    characters. *)
Lemma orphan_filename_inj (e e' : env) :
  hook.orphan_filename e = hook.orphan_filename e' ->
  strftime_compact (clock e) = strftime_compact (clock e')
  /\ random_choices (draws e) ascii_lowercase_digits 6
     = random_choices (draws e') ascii_lowercase_digits 6.
Proof.
  unfold hook.orphan_filename. cbv zeta. intros H.
  change (lit "-") with [DASH] in H. cbn [app] in H.
  apply first_sep_inj in H as [Hts H]; try apply strftime_compact_no_dash.
  split; [exact Hts|]. apply app_inv_tail in H. exact H.
Qed.

(** C5. If the handoff slot is absent, cannot be read as JSON, or holds an
    object that names no session file when a tool event arrives, the
    handler still completes: the edit records go to a session file whose
    name is made for this event from its second and its random draw and
    ends in the orphan tag (two events share an orphan file only when they
    share both), which is no session file of any captured instruction, and
    the session files of captured instructions are left as they were. *)
Theorem orphan_session (e : env) (w : fs) (d : dict) (edits : list hook.Edit.t) :
  blamebot_is_dir w = true ->
  mkdir_ok w = true ->
  can_append w (hook.orphan_filename e) = true ->
  hook.extract_edits py_repr (JDict d) (project_dir e) = Ok edits ->
  (state_file w = SlotAbsent \/ state_file w = SlotUnreadable
   \/ (exists ps, state_file w = SlotJson (JDict ps)
                  /\ truthy (default JNull (ps !! lit "session_file")) = false)) ->
  let w' := hook.run py_repr e (InputJson (JDict d)) w in
  hook.main py_repr e (InputJson (JDict d)) w = Ok w'
  /\ (exists recs,
        log_files w'
        = <[hook.orphan_filename e := read_log w (hook.orphan_filename e) ++ recs]>
            (log_files w)
        /\ List.map Record_.file recs = List.map hook.Edit.file edits)
  /\ (exists stem, hook.orphan_filename e = stem ++ lit "-orphan.jsonl")
  /\ (forall e',
        hook.orphan_filename e = hook.orphan_filename e' ->
        strftime_compact (clock e) = strftime_compact (clock e')
        /\ random_choices (draws e) ascii_lowercase_digits 6
           = random_choices (draws e') ascii_lowercase_digits 6)
  /\ (forall e', hook.orphan_filename e <> capture_prompt.session_filename e')
  /\ (forall e',
        log_files w' !! capture_prompt.session_filename e'
        = log_files w !! capture_prompt.session_filename e').
Proof.
  intros Hdir Hmk Happ Hex Hslot. cbv zeta.
  destruct (determine_session_file_orphan e w Hslot) as (ps & Hps & Hname).
  destruct (main_appends e w d ps edits _ Hdir Hmk Hex Hps Hname Happ)
    as (now & tool & author & session & trace & Hmain).
  unfold hook.run. rewrite Hmain. split; [reflexivity|].
  split; [|split; [|split; [|split]]].
  - eexists. split; [reflexivity|].
    rewrite List.map_map. reflexivity.
  - eexists. unfold hook.orphan_filename. cbv zeta.
    rewrite !app_assoc. reflexivity.
  - intros e'. apply orphan_filename_inj.
  - intros e'. apply orphan_filename_fresh.
  - intros e'. unfold set_log_files. cbn [log_files].
    apply lookup_insert_ne. apply orphan_filename_fresh.
Qed.

End handler.

Example stashed_prompt :
  exists ps, state_file stashed_fs = SlotJson (JDict ps)
             /\ ps !! lit "prompt" = Some (jstr "fix bug")
             /\ ps !! lit "session_file" = Some (jstr "20261103T090507Z-dkry5c.jsonl")
             /\ ps !! lit "author" = Some (jstr "dev").
Proof. eexists. split; [reflexivity|]. repeat split; vm_compute; reflexivity. Qed.

Lemma edit_after_prompt_witness :
  exists r,
    log_files (hook.run no_repr sample_env (InputJson edit_example) stashed_fs)
    = <[capture_prompt.session_filename sample_env :=
          read_log stashed_fs (capture_prompt.session_filename sample_env) ++ [r]]>
        (log_files stashed_fs)
    /\ Record_.prompt r = jstr "fix bug"
    /\ state_file (hook.run no_repr sample_env (InputJson edit_example) stashed_fs)
       = state_file stashed_fs.
Proof.
  eapply (edit_after_prompt no_repr sample_env stashed_fs _ _ _ (lit "fix bug")).
  - reflexivity.
  - reflexivity.
  - reflexivity.
  - vm_compute. reflexivity.
  - reflexivity.
  - vm_compute. reflexivity.
  - vm_compute. discriminate.
  - vm_compute. reflexivity.
Defined.

Lemma orphan_session_witness :
  hook.main no_repr sample_env (InputJson edit_example) fresh_fs
  = Ok (hook.run no_repr sample_env (InputJson edit_example) fresh_fs)
  /\ (exists recs,
        log_files (hook.run no_repr sample_env (InputJson edit_example) fresh_fs)
        = <[hook.orphan_filename sample_env :=
              read_log fresh_fs (hook.orphan_filename sample_env) ++ recs]>
            (log_files fresh_fs)
        /\ List.map Record_.file recs = [lit "src/a.py"])
  /\ hook.orphan_filename sample_env = lit "20261103T090507Z-dkry5c-orphan.jsonl".
Proof.
  destruct (orphan_session no_repr sample_env fresh_fs
              (list_to_map
                 [(lit "tool_name", jstr "Edit");
                  (lit "tool_use_id", jstr "toolu_01");
                  (lit "session_id", jstr "s-1");
                  (lit "tool_input",
                   obj [("file_path", jstr "/proj/src/a.py");
                        ("old_string", jstr "foo");
                        ("new_string", jstr "bar baz")]%string);
                  (lit "tool_response",
                   obj [("structuredPatch"%string, JList [descriptor 10 5])])])
              [ {| hook.Edit.file := lit "src/a.py";
                   hook.Edit.line_start := JInt 10;
                   hook.Edit.line_end := JInt 14;
                   hook.Edit.content_hash := lit "f2ebefa349f0de1c";
                   hook.Edit.change := lit "foo" ++ [SP; hook.ARROW; SP] ++ lit "bar baz" |} ])
    as (Hmain & Hrecs & _).
  - reflexivity.
  - reflexivity.
  - reflexivity.
  - vm_compute. reflexivity.
  - left. reflexivity.
  - split; [exact Hmain|]. split; [exact Hrecs|]. vm_compute. reflexivity.
Defined.

Lemma handler_frame_witness :
  state_file (hook.run no_repr sample_env (InputJson edit_example) stashed_fs)
  = state_file stashed_fs.
Proof.
  apply (proj1 (handler_frame no_repr sample_env (InputJson edit_example)
                  stashed_fs)).
  intros ps name Hs Hn. vm_compute in Hs. injection Hs as <-.
  vm_compute in Hn. injection Hn as <-.
  repeat constructor; discriminate.
Defined.

(** A corrupt slot that is still valid JSON is not treated as absent: with
    [null] in the slot, [prompt_state.get] raises, the script swallows the
    exception, and the edit of the event (there is one) is written to no
    file, orphan or other. *)
Lemma orphan_session_corrupt_slot_counterexample :
  (exists ed,
      hook.extract_edits no_repr edit_example (project_dir sample_env) = Ok [ed])
  /\ hook.main no_repr sample_env (InputJson edit_example)
       (set_state_file fresh_fs (SlotJson JNull)) = Raise
  /\ log_files (hook.run no_repr sample_env (InputJson edit_example)
                  (set_state_file fresh_fs (SlotJson JNull)))
     = log_files fresh_fs
  /\ read_log (hook.run no_repr sample_env (InputJson edit_example)
                 (set_state_file fresh_fs (SlotJson JNull)))
              (hook.orphan_filename sample_env) = [].
Proof.
  split; [eexists; vm_compute; reflexivity|].
  assert (H : hook.main no_repr sample_env (InputJson edit_example)
                (set_state_file fresh_fs (SlotJson JNull)) = Raise)
    by (vm_compute; reflexivity).
  split; [exact H|]. unfold hook.run. rewrite H.
  split; reflexivity.
Qed.

(** The same for any slot that holds a JSON list: [prompt_state.get]
    raises; the script swallows the exception and the event leaves no
    record. *)
Lemma non_object_slot_drops_event (py_repr : json -> str) (e : env) (w : fs) (d : dict) (l : list json) :
  blamebot_is_dir w = true ->
  state_file w = SlotJson (JList l) ->
  hook.run py_repr e (InputJson (JDict d)) w = w.
Proof.
  intros Hdir Hslot. unfold hook.run, hook.main, hook.load_prompt_state.
  rewrite Hdir, Hslot. cbn [negb]. rewrite !py_get_dict. cbn [mbind exc_bind].
  destruct (py_keys _); reflexivity.
Qed.

(** ** Sanitizer *)

Lemma lstrip_suffix (s : str) : exists ws, s = ws ++ lstrip s.
Proof.
  induction s as [|c s [ws IH]]; [exists []; reflexivity|].
  simpl. destruct (is_space c).
  - exists (c :: ws). simpl. f_equal. exact IH.
  - exists []. reflexivity.
Qed.

Lemma starts_space_lstrip (s : str) : starts_space (lstrip s) = false.
Proof.
  induction s as [|c s IH]; [reflexivity|].
  simpl. destruct (is_space c) eqn:E; [exact IH | simpl; exact E].
Qed.

Lemma lstrip_id (s : str) : starts_space s = false -> lstrip s = s.
Proof. destruct s as [|c s]; [reflexivity|]. simpl. intros ->. reflexivity. Qed.

Lemma rstrip_prefix (s : str) : exists ws, s = rstrip s ++ ws.
Proof.
  unfold rstrip. destruct (lstrip_suffix (rev s)) as [ws H].
  exists (rev ws). rewrite <- rev_app_distr, <- H, rev_involutive. reflexivity.
Qed.

Lemma rstrip_idem (s : str) : rstrip (rstrip s) = rstrip s.
Proof.
  unfold rstrip. rewrite rev_involutive.
  rewrite (lstrip_id (lstrip (rev s))) by apply starts_space_lstrip.
  reflexivity.
Qed.

Lemma starts_space_rstrip (s : str) :
  starts_space s = false -> starts_space (rstrip s) = false.
Proof.
  intros H. destruct (rstrip_prefix s) as [ws Hws].
  destruct (rstrip s) as [|c r]; [reflexivity|].
  rewrite Hws in H. exact H.
Qed.

Lemma strip_idem (s : str) : strip (strip s) = strip s.
Proof.
  unfold strip.
  rewrite (lstrip_id (rstrip (lstrip s)))
    by (apply starts_space_rstrip, starts_space_lstrip).
  apply rstrip_idem.
Qed.

Lemma lazy_any_None_cons (m : re.matcher) (c : char) (s : str) :
  re.lazy_any m (c :: s) = None -> m (c :: s) = None /\ re.lazy_any m s = None.
Proof.
  simpl. destruct (m (c :: s)); [discriminate|]. auto.
Qed.

Lemma lazy_any_None_nil (m : re.matcher) :
  re.lazy_any m [] = None -> m [] = None.
Proof. simpl. destruct (m []); [discriminate | reflexivity]. Qed.

(** Where nothing matches, [re.sub] changes nothing. *)
Lemma sub_no_match (m : re.matcher) (s : str) :
  re.lazy_any m s = None -> re.sub m s = s.
Proof.
  unfold re.sub. induction s as [|c s IH]; [reflexivity|].
  intros H. apply lazy_any_None_cons in H as [Hm Hs].
  cbn [re.sub_from]. rewrite Hm. f_equal. apply IH. exact Hs.
Qed.

Lemma lazy_any_None_suffix (m : re.matcher) (pre s : str) :
  re.lazy_any m (pre ++ s) = None -> re.lazy_any m s = None.
Proof.
  induction pre as [|c pre IH]; [auto|].
  intros H. apply lazy_any_None_cons in H as [_ H]. auto.
Qed.

Lemma lazy_any_extends (m : re.matcher) (x y : str) (r : str) :
  extends m -> re.lazy_any m x = Some r -> exists r', re.lazy_any m (x ++ y) = Some r'.
Proof.
  intros Hm. induction x as [|c x IH]; intros H.
  - simpl in H. destruct (m []) eqn:E; [|discriminate].
    destruct (Hm [] y _ E) as [r' Hr']. simpl in Hr'.
    destruct y; simpl; rewrite Hr'; eauto.
  - simpl in H. destruct (m (c :: x)) eqn:E.
    + destruct (Hm _ y _ E) as [r' Hr']. simpl. simpl in Hr'. rewrite Hr'. eauto.
    + simpl. destruct (m (c :: x ++ y)); [eauto|]. apply IH. exact H.
Qed.

Lemma lazy_any_None_prefix (m : re.matcher) (x y : str) :
  extends m -> re.lazy_any m (x ++ y) = None -> re.lazy_any m x = None.
Proof.
  intros Hm H. destruct (re.lazy_any m x) eqn:E; [|reflexivity].
  destruct (lazy_any_extends m x y _ Hm E) as [r' Hr']. congruence.
Qed.

Lemma literal_app (p x y r : str) :
  re.literal p x = Some r -> re.literal p (x ++ y) = Some (r ++ y).
Proof.
  revert x. induction p as [|a p IH]; intros x H.
  - simpl in H. inversion H. destruct (x ++ y); reflexivity.
  - destruct x as [|b x]; [discriminate|]. simpl in *.
    destruct (a =? b); [auto | discriminate].
Qed.

Section sanitizer.

Variable unicode_alnum : char -> bool.

Abbreviation is_word := (re.is_word unicode_alnum).
Abbreviation skip_word := (re.skip_word unicode_alnum).
Abbreviation word_gt := (re.word_gt unicode_alnum).
Abbreviation open_tag := (re.open_tag unicode_alnum).
Abbreviation close_tag := (re.close_tag unicode_alnum).
Abbreviation ide_span := (capture_prompt.ide_span unicode_alnum).
Abbreviation clean_prompt := (capture_prompt.clean_prompt unicode_alnum).

Lemma skip_word_app (x y : str) :
  skip_word x <> [] -> skip_word (x ++ y) = skip_word x ++ y.
Proof.
  induction x as [|c x IH]; [intros H; exfalso; apply H; reflexivity|].
  simpl. destruct (is_word c); [exact IH | reflexivity].
Qed.

Lemma word_gt_app (x y r : str) :
  word_gt x = Some r -> word_gt (x ++ y) = Some (r ++ y).
Proof.
  unfold re.word_gt. destruct x as [|c x]; [discriminate|].
  cbn [app]. destruct (is_word c); [|discriminate].
  intros H. rewrite skip_word_app.
  - apply literal_app. exact H.
  - intros E. rewrite E in H. discriminate.
Qed.

Lemma open_tag_app (x y r : str) :
  open_tag x = Some r -> open_tag (x ++ y) = Some (r ++ y).
Proof.
  unfold re.open_tag. intros H.
  destruct (re.literal (lit "<ide_") x) as [s'|] eqn:E; [|discriminate].
  rewrite (literal_app _ _ y _ E). cbn [mbind option_bind] in *.
  apply word_gt_app. exact H.
Qed.

Lemma close_tag_app (x y r : str) :
  close_tag x = Some r -> close_tag (x ++ y) = Some (r ++ y).
Proof.
  unfold re.close_tag. intros H.
  destruct (re.literal (lit "</ide_") x) as [s'|] eqn:E; [|discriminate].
  rewrite (literal_app _ _ y _ E). cbn [mbind option_bind] in *.
  apply word_gt_app. exact H.
Qed.

Lemma span_extends (open close : re.matcher) :
  (forall x y r, open x = Some r -> open (x ++ y) = Some (r ++ y)) ->
  extends close ->
  extends (re.span open close).
Proof.
  intros Hopen Hclose x y r H. unfold re.span in *.
  destruct (open x) as [s1|] eqn:E1; [|discriminate].
  rewrite (Hopen _ y _ E1). cbn [mbind option_bind] in *.
  destruct (re.lazy_any close s1) as [s2|] eqn:E2; [|discriminate].
  destruct (lazy_any_extends close s1 y _ Hclose E2) as [r' Hr'].
  rewrite Hr'. cbn [mbind option_bind]. eauto.
Qed.

Lemma opened_file_span_extends : extends capture_prompt.opened_file_span.
Proof.
  apply span_extends.
  - intros x y r. apply literal_app.
  - intros x y r H. rewrite (literal_app _ _ y _ H). eauto.
Qed.

Lemma ide_span_extends : extends ide_span.
Proof.
  apply span_extends.
  - apply open_tag_app.
  - intros x y r H. rewrite (close_tag_app _ y _ H). eauto.
Qed.

(** Stripping a text without markup leaves a text without markup. *)
Lemma no_markup_strip (t : str) :
  no_markup unicode_alnum t -> no_markup unicode_alnum (strip t).
Proof.
  intros [H1 H2]. unfold strip.
  destruct (lstrip_suffix t) as [ws Hws].
  destruct (rstrip_prefix (lstrip t)) as [ws' Hws'].
  rewrite Hws in H1, H2.
  apply lazy_any_None_suffix in H1. apply lazy_any_None_suffix in H2.
  rewrite Hws' in H1, H2.
  split.
  - eapply lazy_any_None_prefix; [apply opened_file_span_extends | exact H1].
  - eapply lazy_any_None_prefix; [apply ide_span_extends | exact H2].
Qed.

Lemma clean_prompt_no_markup (t : str) :
  no_markup unicode_alnum t -> clean_prompt (JStr t) = Ok (strip t).
Proof.
  intros [H1 H2]. unfold capture_prompt.clean_prompt.
  cbn [as_str mbind exc_bind].
  rewrite (sub_no_match _ _ H1), (sub_no_match _ _ H2). reflexivity.
Qed.

(** *** A tag pair around a body *)

Lemma literal_prefix (p s : str) : re.literal p (p ++ s) = Some s.
Proof.
  induction p as [|a p IH]; [destruct s; reflexivity|].
  simpl. rewrite N.eqb_refl. exact IH.
Qed.

Lemma literal_Some (p s r : str) : re.literal p s = Some r -> s = p ++ r.
Proof.
  revert s. induction p as [|a p IH]; intros s H.
  - destruct s; inversion H; reflexivity.
  - destruct s as [|b s]; [discriminate|]. simpl in H.
    destruct (a =? b) eqn:E; [|discriminate].
    apply N.eqb_eq in E. subst b. simpl. f_equal. auto.
Qed.

(** A literal without [<] that matches across a [<] matched before it. *)
Lemma literal_before_langle (p x t r : str) :
  Forall (fun c => c <> LANGLE) p ->
  re.literal p (x ++ LANGLE :: t) = Some r ->
  exists r0, re.literal p x = Some r0 /\ r = r0 ++ LANGLE :: t.
Proof.
  revert x. induction p as [|a p IH]; intros x Hp H.
  - exists x. destruct x; simpl in *; inversion H; split; reflexivity.
  - inversion Hp as [|? ? Ha Hp']; subst.
    destruct x as [|b x]; simpl in H.
    + destruct (a =? LANGLE) eqn:E; [|discriminate].
      apply N.eqb_eq in E. contradiction.
    + simpl. destruct (a =? b); [|discriminate]. apply IH; assumption.
Qed.

Lemma is_word_langle : is_word LANGLE = false.
Proof. reflexivity. Qed.

Lemma is_word_rangle : is_word RANGLE = false.
Proof. reflexivity. Qed.

Lemma skip_word_before (x : str) (c : char) (t : str) :
  is_word c = false ->
  skip_word (x ++ c :: t)
  = match skip_word x with
    | [] => c :: t
    | z => z ++ c :: t
    end.
Proof.
  intros Hc. induction x as [|b x IH]; simpl.
  - rewrite Hc. reflexivity.
  - destruct (is_word b); [exact IH | reflexivity].
Qed.

Lemma word_gt_before_langle (x t r : str) :
  word_gt (x ++ LANGLE :: t) = Some r -> exists r', word_gt x = Some r'.
Proof.
  unfold re.word_gt. destruct x as [|c x]; cbn [app].
  - rewrite is_word_langle. discriminate.
  - destruct (is_word c); [|discriminate].
    rewrite (skip_word_before x LANGLE t is_word_langle).
    destruct (skip_word x) as [|z zs] eqn:E.
    + discriminate.
    + intros H. apply literal_before_langle in H as (r0 & H0 & _); [eauto|].
      repeat constructor. discriminate.
Qed.

(** No closing tag straddles the end of a text that is followed by [<]. *)
Lemma close_tag_before_langle (x t r : str) :
  x <> [] ->
  close_tag (x ++ LANGLE :: t) = Some r -> exists r', close_tag x = Some r'.
Proof.
  intros Hx. unfold re.close_tag. destruct x as [|b x]; [congruence|].
  change (lit "</ide_") with (LANGLE :: lit "/ide_").
  cbn [app re.literal]. destruct (LANGLE =? b); [|discriminate].
  destruct (re.literal (lit "/ide_") (x ++ LANGLE :: t)) as [s|] eqn:E;
    [|discriminate].
  apply literal_before_langle in E as (r0 & E0 & ->);
    [|repeat constructor; discriminate].
  rewrite E0. cbn [mbind option_bind]. apply word_gt_before_langle.
Qed.

(** A matcher that, wherever it matches, sits on a closing tag finds
    nothing inside a body without closing tags. *)
Lemma lazy_any_skip_body (k : re.matcher) (body t : str) :
  (forall x r, k x = Some r -> exists r', close_tag x = Some r') ->
  no_closing_tag unicode_alnum body ->
  re.lazy_any k (body ++ LANGLE :: t) = re.lazy_any k (LANGLE :: t).
Proof.
  intros Hk. induction body as [|c body IH]; intros Hbody; [reflexivity|].
  apply lazy_any_None_cons in Hbody as [Hc Hbody].
  change ((c :: body) ++ LANGLE :: t) with (c :: (body ++ LANGLE :: t)).
  cbn [re.lazy_any].
  destruct (k (c :: body ++ LANGLE :: t)) as [r|] eqn:E.
  - exfalso. apply Hk in E as [r' E].
    apply (close_tag_before_langle (c :: body)) in E as [r'' E]; [|discriminate].
    congruence.
  - apply IH. exact Hbody.
Qed.

Lemma opened_file_close_is_close_tag (s r : str) :
  re.literal (lit "</ide_opened_file>") s = Some r -> close_tag s = Some r.
Proof.
  intros H. apply literal_Some in H. subst s. reflexivity.
Qed.

Lemma skip_word_all (n : str) (c : char) (t : str) :
  Forall (fun a => is_word a = true) n ->
  is_word c = false ->
  skip_word (n ++ c :: t) = c :: t.
Proof.
  intros Hn Hc. induction Hn as [|a n Ha _ IH]; simpl.
  - rewrite Hc. reflexivity.
  - rewrite Ha. exact IH.
Qed.

Lemma word_gt_name (name t : str) :
  name <> [] ->
  Forall (fun a => is_word a = true) name ->
  word_gt (name ++ RANGLE :: t) = Some t.
Proof.
  intros Hne Hn. destruct name as [|c n]; [congruence|].
  inversion Hn as [|? ? Hc Hn']; subst.
  unfold re.word_gt. cbn [app]. rewrite Hc.
  rewrite (skip_word_all n RANGLE t Hn' is_word_rangle).
  simpl. reflexivity.
Qed.

Lemma open_tag_name (name t : str) :
  name <> [] ->
  Forall (fun a => is_word a = true) name ->
  open_tag (lit "<ide_" ++ name ++ RANGLE :: t) = Some t.
Proof.
  intros Hne Hn. unfold re.open_tag. rewrite literal_prefix.
  cbn [mbind option_bind]. apply word_gt_name; assumption.
Qed.

Lemma close_tag_name (name t : str) :
  name <> [] ->
  Forall (fun a => is_word a = true) name ->
  close_tag (lit "</ide_" ++ name ++ RANGLE :: t) = Some t.
Proof.
  intros Hne Hn. unfold re.close_tag. rewrite literal_prefix.
  cbn [mbind option_bind]. apply word_gt_name; assumption.
Qed.

Lemma sub_from_skip_all (m : re.matcher) (s : str) (k : nat) :
  (length s <= k)%nat -> re.sub_from m k s = [].
Proof.
  revert k. induction s as [|c s IH]; intros k Hk; [reflexivity|].
  simpl in Hk. destruct k as [|k]; [lia|]. simpl. apply IH. lia.
Qed.

(** A match that takes the whole text leaves nothing. *)
Lemma sub_whole (m : re.matcher) (s : str) : m s = Some [] -> re.sub m s = [].
Proof.
  intros H. unfold re.sub. destruct s as [|c s]; [reflexivity|].
  cbn [re.sub_from]. rewrite H. apply sub_from_skip_all. simpl. lia.
Qed.

Lemma tag_pair_shape (name body : str) :
  tag_pair name body
  = lit "<ide_" ++ name ++ RANGLE :: body ++ LANGLE :: lit "/ide_" ++ name ++ [RANGLE].
Proof. reflexivity. Qed.

Lemma ide_span_tag_pair (name body : str) :
  name <> [] ->
  Forall (fun a => is_word a = true) name ->
  no_closing_tag unicode_alnum body ->
  ide_span (tag_pair name body) = Some [].
Proof.
  intros Hne Hn Hbody. rewrite tag_pair_shape.
  unfold capture_prompt.ide_span, re.span.
  rewrite open_tag_name by assumption. cbn [mbind option_bind].
  rewrite lazy_any_skip_body; [|eauto | exact Hbody].
  change (LANGLE :: lit "/ide_" ++ name ++ [RANGLE])
    with (lit "</ide_" ++ name ++ RANGLE :: []).
  assert (Hc : close_tag (lit "</ide_" ++ name ++ RANGLE :: []) = Some [])
    by (apply close_tag_name; assumption).
  assert (Hl : re.lazy_any close_tag (lit "</ide_" ++ name ++ RANGLE :: []) = Some []).
  { change (lit "</ide_" ++ name ++ [RANGLE])
      with (LANGLE :: lit "/ide_" ++ name ++ [RANGLE]) in *.
    cbn [re.lazy_any]. rewrite Hc. reflexivity. }
  rewrite Hl. reflexivity.
Qed.

Abbreviation opened_file_close := (re.literal (lit "</ide_opened_file>")).

Lemma opened_file_span_tag_pair (body : str) :
  no_closing_tag unicode_alnum body ->
  capture_prompt.opened_file_span (tag_pair (lit "opened_file") body) = Some [].
Proof.
  intros Hbody.
  change (tag_pair (lit "opened_file") body)
    with (lit "<ide_opened_file>" ++ body ++ LANGLE :: lit "/ide_opened_file>").
  unfold capture_prompt.opened_file_span, re.span.
  rewrite literal_prefix. cbn [mbind option_bind].
  rewrite lazy_any_skip_body;
    [|intros x r Hx; apply opened_file_close_is_close_tag in Hx; eauto
     |exact Hbody].
  reflexivity.
Qed.

Lemma span_needs_close (open close : re.matcher) (s : str) :
  (forall s r, open s = Some r -> exists pre, s = pre ++ r) ->
  re.lazy_any close s = None ->
  re.span open close s = None.
Proof.
  intros Hopen H. unfold re.span.
  destruct (open s) as [s1|] eqn:E; [|reflexivity].
  destruct (Hopen _ _ E) as [pre ->].
  apply lazy_any_None_suffix in H. cbn [mbind option_bind]. rewrite H. reflexivity.
Qed.

Lemma lazy_any_None_lift (m1 m2 : re.matcher) (s : str) :
  (forall s, re.lazy_any m2 s = None -> m1 s = None) ->
  re.lazy_any m2 s = None ->
  re.lazy_any m1 s = None.
Proof.
  intros Hm. induction s as [|c s IH]; intros H.
  - simpl. rewrite (Hm [] H). reflexivity.
  - pose proof (Hm _ H) as H1. apply lazy_any_None_cons in H as [_ H].
    cbn [re.lazy_any]. rewrite H1. apply IH. exact H.
Qed.

Lemma lazy_any_skip_non_langle (p x y : str) :
  Forall (fun c => c <> LANGLE) x ->
  re.lazy_any (re.literal (LANGLE :: p)) (x ++ y)
  = re.lazy_any (re.literal (LANGLE :: p)) y.
Proof.
  induction 1 as [|c x Hc _ IH]; [reflexivity|].
  cbn [app re.lazy_any re.literal].
  destruct (LANGLE =? c) eqn:E; [|exact IH].
  apply N.eqb_eq in E. congruence.
Qed.

Lemma is_word_not_langle (n : str) :
  Forall (fun a => is_word a = true) n -> Forall (fun c => c <> LANGLE) n.
Proof.
  intros H. eapply Forall_impl; [exact H|].
  intros a Ha ->. rewrite is_word_langle in Ha. discriminate.
Qed.

Lemma is_word_not_rangle (n : str) :
  Forall (fun a => is_word a = true) n -> Forall (fun c => c <> RANGLE) n.
Proof.
  intros H. eapply Forall_impl; [exact H|].
  intros a Ha ->. rewrite is_word_rangle in Ha. discriminate.
Qed.

(** Only the name [opened_file] closes as [</ide_opened_file>]. *)
Lemma opened_file_close_name (name r : str) :
  Forall (fun a => is_word a = true) name ->
  opened_file_close (lit "</ide_" ++ name ++ [RANGLE]) = Some r ->
  name = lit "opened_file".
Proof.
  intros Hn H. apply literal_Some in H.
  change (lit "</ide_opened_file>" ++ r)
    with (lit "</ide_" ++ lit "opened_file" ++ RANGLE :: r) in H.
  apply app_inv_head in H.
  apply first_sep_inj in H as [H _]; [exact H | |].
  - apply is_word_not_rangle. exact Hn.
  - repeat constructor; discriminate.
Qed.

Lemma lazy_any_cons_None (m : re.matcher) (c : char) (s : str) :
  m (c :: s) = None -> re.lazy_any m (c :: s) = re.lazy_any m s.
Proof. intros H. cbn [re.lazy_any]. rewrite H. reflexivity. Qed.

Lemma opened_file_span_absent (name body : str) :
  Forall (fun a => is_word a = true) name ->
  name <> lit "opened_file" ->
  no_closing_tag unicode_alnum body ->
  re.lazy_any capture_prompt.opened_file_span (tag_pair name body) = None.
Proof.
  intros Hn Hname Hbody.
  apply (lazy_any_None_lift _ opened_file_close).
  { intros s. apply span_needs_close. intros s0 r H.
    apply literal_Some in H. eauto. }
  rewrite tag_pair_shape.
  set (closing := LANGLE :: lit "/ide_" ++ name ++ [RANGLE]).
  change (lit "</ide_opened_file>") with (LANGLE :: lit "/ide_opened_file>").
  change (lit "<ide_" ++ name ++ RANGLE :: body ++ closing)
    with (LANGLE :: 105 :: lit "de_" ++ name ++ RANGLE :: body ++ closing).
  rewrite lazy_any_cons_None by reflexivity.
  replace (105 :: lit "de_" ++ name ++ RANGLE :: body ++ closing)
    with ((lit "ide_" ++ name ++ [RANGLE]) ++ body ++ closing)
    by (rewrite <- !app_assoc; reflexivity).
  rewrite lazy_any_skip_non_langle.
  2:{ apply Forall_app_2; [repeat constructor; discriminate|].
      apply Forall_app_2; [apply is_word_not_langle; exact Hn|].
      repeat constructor; discriminate. }
  unfold closing. rewrite lazy_any_skip_body.
  2:{ intros x r Hx. apply opened_file_close_is_close_tag in Hx. eauto. }
  2:{ exact Hbody. }
  rewrite lazy_any_cons_None.
  2:{ destruct (re.literal (LANGLE :: lit "/ide_opened_file>")
                  (LANGLE :: lit "/ide_" ++ name ++ [RANGLE])) as [r|] eqn:E;
        [|reflexivity].
      exfalso. apply Hname. eapply opened_file_close_name; [exact Hn | exact E]. }
  rewrite <- (app_nil_r (lit "/ide_" ++ name ++ [RANGLE])).
  rewrite lazy_any_skip_non_langle; [reflexivity|].
  apply Forall_app_2; [repeat constructor; discriminate|].
  apply Forall_app_2; [apply is_word_not_langle; exact Hn|].
  repeat constructor; discriminate.
Qed.

(** A recognized tag pair around a body without closing tags is removed
    whole. *)
Lemma clean_prompt_tag_pair (name body : str) :
  name <> [] ->
  Forall (fun a => is_word a = true) name ->
  no_closing_tag unicode_alnum body ->
  clean_prompt (JStr (tag_pair name body)) = Ok [].
Proof.
  intros Hne Hn Hbody. unfold capture_prompt.clean_prompt.
  cbn [as_str mbind exc_bind].
  destruct (decide (name = lit "opened_file")) as [->|Hname].
  - rewrite (sub_whole _ _ (opened_file_span_tag_pair body Hbody)). reflexivity.
  - rewrite (sub_no_match _ _ (opened_file_span_absent name body Hn Hname Hbody)).
    rewrite (sub_whole _ _ (ide_span_tag_pair name body Hne Hn Hbody)).
    reflexivity.
Qed.

Lemma lazy_any_None_head (m : re.matcher) (s : str) :
  re.lazy_any m s = None -> m s = None.
Proof.
  destruct s as [|c s]; intros H.
  - apply lazy_any_None_nil. exact H.
  - apply lazy_any_None_cons in H as [H _]. exact H.
Qed.

Lemma skip_word_suffix (s : str) : exists pre, s = pre ++ skip_word s.
Proof.
  induction s as [|c s [pre IH]]; [exists []; reflexivity|].
  simpl. destruct (is_word c).
  - exists (c :: pre). simpl. f_equal. exact IH.
  - exists []. reflexivity.
Qed.

Lemma word_gt_suffix (s r : str) : word_gt s = Some r -> exists pre, s = pre ++ r.
Proof.
  unfold re.word_gt. destruct s as [|c s]; [discriminate|].
  destruct (is_word c); [|discriminate]. intros H.
  apply literal_Some in H. destruct (skip_word_suffix s) as [pre Hpre].
  exists (c :: pre ++ lit ">"). rewrite Hpre at 1. rewrite H.
  simpl. rewrite <- !app_assoc. reflexivity.
Qed.

Lemma open_tag_suffix (s r : str) : open_tag s = Some r -> exists pre, s = pre ++ r.
Proof.
  unfold re.open_tag. intros H.
  destruct (re.literal (lit "<ide_") s) as [s'|] eqn:E; [|discriminate].
  cbn [mbind option_bind] in H.
  apply literal_Some in E. apply word_gt_suffix in H as [pre ->].
  exists (lit "<ide_" ++ pre). rewrite E, <- app_assoc. reflexivity.
Qed.

(** Without a closing tag there is no span to remove. *)
Lemma no_closing_tag_no_markup (t : str) :
  no_closing_tag unicode_alnum t -> no_markup unicode_alnum t.
Proof.
  intros H. split.
  - apply (lazy_any_None_lift _ opened_file_close).
    + intros s. apply span_needs_close. intros s0 r Hs.
      apply literal_Some in Hs. eauto.
    + apply (lazy_any_None_lift _ close_tag); [|exact H].
      intros s Hs. apply lazy_any_None_head in Hs.
      destruct (opened_file_close s) as [r|] eqn:E; [|reflexivity].
      apply opened_file_close_is_close_tag in E. congruence.
  - apply (lazy_any_None_lift _ close_tag); [|exact H].
    intros s. apply span_needs_close. apply open_tag_suffix.
Qed.

(** X1. On a text that holds no markup span the Sanitizer only trims, and
    running it again on its output changes nothing. *)
Theorem sanitizer_idempotent_on_clean_text (t : str) :
  no_markup unicode_alnum t ->
  clean_prompt (JStr t) = Ok (strip t)
  /\ clean_prompt (JStr (strip t)) = Ok (strip t).
Proof.
  intros H. split.
  - apply clean_prompt_no_markup. exact H.
  - rewrite clean_prompt_no_markup by (apply no_markup_strip; exact H).
    rewrite strip_idem. reflexivity.
Qed.

(** X2. A text that consists of one tag pair [<ide_NAME>body</ide_NAME>],
    its name made of word characters and its body free of closing tags, is
    removed whole: nothing of the tags or the body is left. *)
Theorem sanitizer_removes_tag_pair (name body : str) :
  name <> [] ->
  Forall (fun a => re.is_word unicode_alnum a = true) name ->
  no_closing_tag unicode_alnum body ->
  clean_prompt (JStr (tag_pair name body)) = Ok [].
Proof. apply clean_prompt_tag_pair. Qed.

(** X3. Unterminated markup is left as it is: a text in which no closing
    tag occurs is only trimmed, whatever opening tags it holds. *)
Theorem sanitizer_keeps_unterminated_tags (t : str) :
  no_closing_tag unicode_alnum t ->
  clean_prompt (JStr t) = Ok (strip t).
Proof.
  intros H. apply clean_prompt_no_markup, no_closing_tag_no_markup. exact H.
Qed.

(** X4. The Sanitizer accepts every string, and what it returns neither
    starts nor ends with whitespace. *)
Theorem sanitizer_output_is_trimmed (t : str) :
  exists c, clean_prompt (JStr t) = Ok c /\ lstrip c = c /\ rstrip c = c.
Proof.
  unfold capture_prompt.clean_prompt. cbn [as_str mbind exc_bind].
  eexists. split; [reflexivity|]. unfold strip. split.
  - apply lstrip_id, starts_space_rstrip, starts_space_lstrip.
  - apply rstrip_idem.
Qed.


End sanitizer.



Lemma sanitizer_idempotent_on_clean_text_witness :
  capture_prompt.clean_prompt ascii_only (jstr "  fix <b>bug</b> ")
  = Ok (lit "fix <b>bug</b>")
  /\ capture_prompt.clean_prompt ascii_only (jstr "fix <b>bug</b>")
     = Ok (lit "fix <b>bug</b>").
Proof.
  apply (sanitizer_idempotent_on_clean_text ascii_only (lit "  fix <b>bug</b> ")).
  split; reflexivity.
Defined.

Lemma sanitizer_removes_tag_pair_witness :
  capture_prompt.clean_prompt ascii_only
    (jstr "<ide_selection>lines 3-7 of <a.py></ide_selection>")
  = Ok [].
Proof.
  apply (sanitizer_removes_tag_pair ascii_only
           (lit "selection") (lit "lines 3-7 of <a.py>")).
  - discriminate.
  - repeat constructor.
  - reflexivity.
Defined.

Lemma sanitizer_keeps_unterminated_tags_witness :
  capture_prompt.clean_prompt ascii_only (jstr " <ide_selection>fix bug ")
  = Ok (lit "<ide_selection>fix bug").
Proof.
  apply (sanitizer_keeps_unterminated_tags ascii_only
           (lit " <ide_selection>fix bug ")).
  reflexivity.
Defined.

(** ** The tool-event handler: edge behaviour *)

Section handler_edges.

Variable py_repr : json -> str.

(** X5. The handler degrades to a no-op: when the project is not
    initialized, standard input cannot be parsed, the log directory cannot
    be made, or no session file can be opened for appending, a run leaves
    the file system exactly as it was. *)
Theorem handler_noop_when_it_cannot_write (e : env) (input : stdin) (w : fs) :
  blamebot_is_dir w = false \/ input = InputUnparseable
  \/ mkdir_ok w = false \/ (forall name, can_append w name = false) ->
  hook.run py_repr e input w = w.
Proof.
  intros H. unfold hook.run.
  destruct (hook.main py_repr e input w) as [w'|] eqn:Hmain; [|reflexivity].
  unfold hook.main in Hmain.
  destruct (blamebot_is_dir w) eqn:Hdir; cbn [negb] in Hmain; [|congruence].
  destruct input as [| |data]; [congruence | |].
  all: destruct H as [H|[H|[H|H]]]; try discriminate H; exc_inv Hmain.
  all: try (rewrite H in Hmain; cbn [negb] in Hmain; discriminate Hmain).
  all: destruct (mkdir_ok w); cbn [negb] in Hmain; try discriminate Hmain;
    rewrite H in Hmain; congruence.
Qed.

(** X6. A payload that is not a JSON object, or whose [tool_input] is
    present but not an object, raises before anything is written: the
    script swallows the exception and the event leaves no record. *)
Theorem handler_drops_malformed_payload (e : env) (w : fs) (v : json) :
  (forall d, v <> JDict d)
  \/ (exists d x, v = JDict d /\ d !! lit "tool_input" = Some x
                  /\ forall ti, x <> JDict ti) ->
  hook.run py_repr e (InputJson v) w = w.
Proof.
  intros H. unfold hook.run, hook.main.
  destruct (blamebot_is_dir w); cbn [negb]; [|reflexivity].
  destruct H as [H|(d & x & -> & Hx & Hnd)].
  - destruct v; try reflexivity. exfalso. eapply H. reflexivity.
  - rewrite !py_get_dict. cbn [mbind exc_bind]. rewrite Hx. cbn [from_option id].
    destruct x; try reflexivity. exfalso. eapply Hnd. reflexivity.
Qed.

(** What a run appends, spelled out. *)
Lemma main_appends_records (e : env) (input : stdin) (w w' : fs) :
  hook.main py_repr e input w = Ok w' ->
  w' = w
  \/ exists name prompt tool author session trace edits,
       hook.extract_edits py_repr
         (match input with InputJson v => v | _ => JDict ∅ end) (project_dir e)
       = Ok edits
       /\ w' = set_log_files w
                 (<[name := read_log w name
                            ++ List.map
                                 (hook.make_record (strftime_iso (clock e))
                                    prompt tool author session trace) edits]>
                    (log_files w)).
Proof.
  unfold hook.main. intros H.
  destruct (blamebot_is_dir w); cbn [negb] in H; [|left; congruence].
  destruct input as [| |data]; [left; congruence | |].
  all: exc_inv H; destruct (mkdir_ok w); cbn [negb] in H; [|discriminate];
    match type of H with
    | (if can_append ?w0 ?n then _ else _) = _ => destruct (can_append w0 n)
    end; [|left; congruence];
    exc_inv H; inversion H; right; do 7 eexists; split; [eassumption|reflexivity].
Qed.

(** X7. Whatever a run of the handler writes is one line per extracted
    edit, in order, at the end of one session file: each line copies the
    file, line range, fingerprint and summary of its edit, carries the time
    of the run, and has an empty reason. *)
Theorem handler_appends_one_record_per_edit (e : env) (input : stdin) (w : fs) :
  let w' := hook.run py_repr e input w in
  let data := match input with InputJson v => v | _ => JDict ∅ end in
  w' = w
  \/ exists name recs edits,
       hook.extract_edits py_repr data (project_dir e) = Ok edits
       /\ log_files w' = <[name := read_log w name ++ recs]> (log_files w)
       /\ length recs = length edits
       /\ forall i r,
            recs !! i = Some r ->
            exists ed,
              edits !! i = Some ed
              /\ Record_.file r = hook.Edit.file ed
              /\ Record_.lines r
                 = (hook.Edit.line_start ed, hook.Edit.line_end ed)
              /\ Record_.content_hash r = hook.Edit.content_hash ed
              /\ Record_.change r = hook.Edit.change ed
              /\ Record_.reason r = []
              /\ Record_.ts r = strftime_iso (clock e).
Proof.
  cbv zeta. unfold hook.run.
  destruct (hook.main py_repr e input w) as [w'|] eqn:Hmain; [|left; reflexivity].
  apply main_appends_records in Hmain
    as [->|(name & prompt & tool & author & session & trace & edits & Hex & ->)];
    [left; reflexivity|].
  right. exists name. eexists. exists edits.
  split; [exact Hex|]. split; [reflexivity|]. split.
  - rewrite length_map. reflexivity.
  - intros i r Hr. apply list_lookup_fmap_Some in Hr as (ed & -> & Hed).
    exists ed. split; [exact Hed|]. repeat split; reflexivity.
Qed.

End handler_edges.

Lemma handler_noop_when_it_cannot_write_witness :
  hook.run no_repr sample_env InputUnparseable stashed_fs = stashed_fs.
Proof.
  apply (handler_noop_when_it_cannot_write no_repr sample_env InputUnparseable
           stashed_fs).
  right. left. reflexivity.
Defined.

Lemma handler_drops_malformed_payload_witness :
  hook.run no_repr sample_env
    (InputJson (obj [("tool_name", jstr "Edit");
                     ("tool_input", jstr "src/a.py")]%string)) stashed_fs
  = stashed_fs.
Proof.
  apply (handler_drops_malformed_payload no_repr sample_env stashed_fs).
  right. eexists. exists (jstr "src/a.py").
  split; [reflexivity|]. split; [reflexivity|]. discriminate.
Defined.

(** ** The prompt-capture script *)

Section capture.

Variable unicode_alnum : char -> bool.

Lemma capture_main_effect (e : env) (input : stdin) (w w' : fs) :
  capture_prompt.main unicode_alnum e input w = Ok w' ->
  w' = w \/ exists s, w' = set_state_file w s.
Proof.
  unfold capture_prompt.main. intros H.
  destruct (blamebot_is_dir w); cbn [negb] in H; [|left; congruence].
  exc_inv H. destruct (mkdir_ok w); cbn [negb] in H; [|discriminate].
  destruct (can_write_state w); cbn [negb] in H; [|discriminate].
  inversion H. right. eauto.
Qed.

Lemma capture_never_touches_logs_aux (e : env) (input : stdin) (w : fs) :
  capture_prompt.run unicode_alnum e input w = w
  \/ exists s, capture_prompt.run unicode_alnum e input w = set_state_file w s.
Proof.
  unfold capture_prompt.run.
  destruct (capture_prompt.main unicode_alnum e input w) as [w'|] eqn:Hmain;
    [|left; reflexivity].
  apply capture_main_effect in Hmain as [->|[s ->]]; eauto.
Qed.

(** X8. The capture script never touches a session log, whatever its input
    and whether or not it succeeds: its only effect is on the handoff
    slot. *)
Theorem capture_never_touches_logs (e : env) (input : stdin) (w : fs) :
  let w' := capture_prompt.run unicode_alnum e input w in
  log_files w' = log_files w
  /\ (w' = w \/ exists s, w' = set_state_file w (SlotJson s)).
Proof.
  cbv zeta. unfold capture_prompt.run.
  destruct (capture_prompt.main unicode_alnum e input w) as [w'|] eqn:Hmain.
  - unfold capture_prompt.main in Hmain.
    destruct (blamebot_is_dir w); cbn [negb] in Hmain;
      [|inversion Hmain; auto].
    exc_inv Hmain. destruct (mkdir_ok w); cbn [negb] in Hmain; [|discriminate].
    destruct (can_write_state w); cbn [negb] in Hmain; [|discriminate].
    inversion Hmain. split; [reflexivity|]. right. eauto.
  - auto.
Qed.

Lemma clean_prompt_str (t : str) :
  exists c, capture_prompt.clean_prompt unicode_alnum (JStr t) = Ok c.
Proof. eexists. reflexivity. Qed.

Lemma capture_run_stash (e : env) (input : stdin) (w : fs) (raw : str) :
  blamebot_is_dir w = true ->
  mkdir_ok w = true ->
  can_write_state w = true ->
  py_get (payload input) (lit "prompt") (JStr []) = Ok (JStr raw) ->
  exists ps cleaned,
    capture_prompt.clean_prompt unicode_alnum (JStr raw) = Ok cleaned
    /\ capture_prompt.run unicode_alnum e input w
       = set_state_file w (SlotJson (JDict ps))
    /\ ps !! lit "prompt" = Some (JStr cleaned)
    /\ ps !! lit "prompt_raw" = Some (JStr raw)
    /\ ps !! lit "session_file" = Some (JStr (capture_prompt.session_filename e))
    /\ ps !! lit "author" = Some (JStr (capture_prompt.get_git_author e))
    /\ ps !! lit "timestamp" = Some (JStr (strftime_iso (clock e))).
Proof.
  intros Hdir Hmk Hwr Hraw.
  destruct (clean_prompt_str raw) as (cleaned & Hc).
  apply py_get_Ok in Hraw as Hdata. destruct Hdata as (d & Hd & _).
  unfold capture_prompt.run, capture_prompt.main.
  rewrite Hdir, Hmk, Hwr. cbn [negb].
  change (match input with InputJson v => v | _ => JDict ∅ end)
    with (payload input).
  rewrite Hraw. cbn [mbind exc_bind]. rewrite Hc. cbn [mbind exc_bind].
  rewrite Hd, !py_get_dict. cbn [mbind exc_bind].
  eexists. exists cleaned. split; [reflexivity|]. split; [reflexivity|].
  repeat split; reflexivity.
Qed.

(** X9. In an initialized project whose state file can be written, a
    payload with a string prompt (or with none: blank and unparseable input
    count as the empty object) is stashed: the slot then holds the sanitized
    prompt, the raw prompt, the freshly named session file and the author. *)
Theorem capture_stashes_prompt (e : env) (input : stdin) (w : fs) (raw : str) :
  blamebot_is_dir w = true ->
  mkdir_ok w = true ->
  can_write_state w = true ->
  py_get (payload input) (lit "prompt") (JStr []) = Ok (JStr raw) ->
  exists ps cleaned,
    capture_prompt.clean_prompt unicode_alnum (JStr raw) = Ok cleaned
    /\ capture_prompt.run unicode_alnum e input w
       = set_state_file w (SlotJson (JDict ps))
    /\ ps !! lit "prompt" = Some (JStr cleaned)
    /\ ps !! lit "prompt_raw" = Some (JStr raw)
    /\ ps !! lit "session_file" = Some (JStr (capture_prompt.session_filename e))
    /\ ps !! lit "author" = Some (JStr (capture_prompt.get_git_author e))
    /\ ps !! lit "timestamp" = Some (JStr (strftime_iso (clock e))).
Proof. apply capture_run_stash. Qed.

(** X10. The capture script degrades to a no-op: when the project is not
    initialized, the directories cannot be made, the state file cannot be
    written, the payload is not a JSON object, or its prompt is not a
    string, the slot keeps what it held. *)
Theorem capture_noop_on_failure (e : env) (input : stdin) (w : fs) :
  blamebot_is_dir w = false \/ mkdir_ok w = false \/ can_write_state w = false
  \/ (forall d, payload input <> JDict d)
  \/ (exists d x, payload input = JDict d /\ d !! lit "prompt" = Some x
                  /\ forall s, x <> JStr s) ->
  capture_prompt.run unicode_alnum e input w = w.
Proof.
  intros H. unfold capture_prompt.run.
  destruct (capture_prompt.main unicode_alnum e input w) as [w'|] eqn:Hmain;
    [|reflexivity].
  unfold capture_prompt.main in Hmain.
  change (match input with InputJson v => v | _ => JDict ∅ end)
    with (payload input) in Hmain.
  destruct (blamebot_is_dir w) eqn:Hdir; cbn [negb] in Hmain; [|congruence].
  exc_inv Hmain.
  destruct H as [H|[H|[H|[H|(d & x & Hd & Hx & Hns)]]]].
  - discriminate H.
  - rewrite H in Hmain. discriminate Hmain.
  - rewrite H in Hmain. destruct (mkdir_ok w); discriminate Hmain.
  - apply py_get_Ok in Hv as (d & Hd & _). exfalso. eapply H. exact Hd.
  - rewrite Hd, py_get_dict, Hx in Hv. cbn [from_option id] in Hv.
    inversion Hv; subst v.
    destruct x; try discriminate Hv0. exfalso. eapply Hns. reflexivity.
Qed.

(** X11. The handoff slot keeps no history: a capture that succeeds leaves
    the same file system whether or not another capture ran before it. *)
Theorem capture_last_write_wins (e1 e2 : env) (i1 i2 : stdin) (w w2 : fs) :
  capture_prompt.main unicode_alnum e2 i2 w = Ok w2 ->
  capture_prompt.run unicode_alnum e2 i2 (capture_prompt.run unicode_alnum e1 i1 w)
  = w2.
Proof.
  intros H2. destruct (blamebot_is_dir w) eqn:Hdir.
  - destruct (capture_never_touches_logs_aux e1 i1 w) as [->|[s ->]].
    + unfold capture_prompt.run. rewrite H2. reflexivity.
    + unfold capture_prompt.run, capture_prompt.main in *.
      cbn [blamebot_is_dir set_state_file mkdir_ok can_write_state].
      rewrite Hdir in *. cbn [negb] in *.
      exc_inv H2. rewrite Hv. cbn [mbind exc_bind]. rewrite Hv0.
      cbn [mbind exc_bind]. rewrite Hv1. cbn [mbind exc_bind]. rewrite Hv2.
      cbn [mbind exc_bind].
      destruct (mkdir_ok w); cbn [negb] in *; [|discriminate H2].
      destruct (can_write_state w); cbn [negb] in *; [|discriminate H2].
      inversion H2. reflexivity.
  - assert (H1 : capture_prompt.run unicode_alnum e1 i1 w = w).
    { unfold capture_prompt.run, capture_prompt.main. rewrite Hdir. reflexivity. }
    rewrite H1. unfold capture_prompt.run. rewrite H2. reflexivity.
Qed.

End capture.

Lemma capture_stashes_prompt_witness :
  exists ps cleaned,
    capture_prompt.clean_prompt ascii_only
      (jstr "<ide_opened_file>The user opened a.py</ide_opened_file> fix bug")
    = Ok cleaned
    /\ stashed_fs = set_state_file fresh_fs (SlotJson (JDict ps))
    /\ ps !! lit "prompt" = Some (JStr cleaned)
    /\ cleaned = lit "fix bug".
Proof.
  destruct (capture_stashes_prompt ascii_only sample_env (InputJson prompt_example)
              fresh_fs
              (lit "<ide_opened_file>The user opened a.py</ide_opened_file> fix bug")
              eq_refl eq_refl eq_refl eq_refl)
    as (ps & cleaned & Hc & Hrun & Hp & _).
  exists ps, cleaned. split; [exact Hc|]. split; [exact Hrun|].
  split; [exact Hp|].
  assert (E : capture_prompt.clean_prompt ascii_only
                (jstr "<ide_opened_file>The user opened a.py</ide_opened_file> fix bug")
              = Ok (lit "fix bug")) by reflexivity.
  unfold jstr in E. rewrite E in Hc. congruence.
Defined.

Lemma capture_noop_on_failure_witness :
  capture_prompt.run ascii_only sample_env
    (InputJson (obj [("prompt"%string, JInt 7)])) stashed_fs
  = stashed_fs.
Proof.
  apply (capture_noop_on_failure ascii_only sample_env).
  right. right. right. right.
  eexists. exists (JInt 7). split; [reflexivity|]. split; [reflexivity|].
  discriminate.
Defined.

Lemma capture_last_write_wins_witness :
  capture_prompt.run ascii_only sample_env (InputJson prompt_example)
    (capture_prompt.run ascii_only sample_env InputBlank fresh_fs)
  = stashed_fs.
Proof.
  apply (capture_last_write_wins ascii_only sample_env sample_env InputBlank
           (InputJson prompt_example) fresh_fs stashed_fs).
  reflexivity.
Defined.

(** ** The two scripts, one after the other *)

Lemma session_filename_nonempty (e : env) : capture_prompt.session_filename e <> [].
Proof.
  unfold capture_prompt.session_filename. cbv zeta.
  destruct (strftime_compact (clock e)); discriminate.
Qed.

(** [main_appends] with every field of the records named. *)
Lemma main_appends_fields (py_repr : json -> str) (e : env) (w : fs) (d ps : dict)
    (edits : list hook.Edit.t) (name : str) :
  blamebot_is_dir w = true ->
  mkdir_ok w = true ->
  hook.extract_edits py_repr (JDict d) (project_dir e) = Ok edits ->
  hook.load_prompt_state w = JDict ps ->
  hook.determine_session_file e (JDict ps) = Ok (JStr name) ->
  can_append w name = true ->
  exists session trace,
    hook.session_identifier (JDict d) (JDict ps) = Ok session
    /\ hook.trace_reference py_repr (JDict d) (JDict ps) = Ok trace
    /\ hook.main py_repr e (InputJson (JDict d)) w
       = Ok (set_log_files w
               (<[name := read_log w name
                          ++ List.map
                               (hook.make_record (strftime_iso (clock e))
                                  (default (JStr []) (ps !! lit "prompt"))
                                  (default (JStr []) (d !! lit "tool_name"))
                                  (default (JStr (lit "unknown")) (ps !! lit "author"))
                                  session trace) edits]>
                  (log_files w))).
Proof.
  intros Hdir Hmk Hex Hps Hname Happ.
  destruct (extract_edits_input_dict py_repr _ _ _ Hex) as [ti Hti].
  destruct (trace_reference_dict py_repr d ps) as [trace Htrace].
  destruct (session_identifier_dict d ps) as [session Hsession].
  exists session, trace. split; [exact Hsession|]. split; [exact Htrace|].
  unfold hook.main. rewrite Hdir, Hps. cbn [negb]. rewrite !py_get_dict.
  cbn [mbind exc_bind]. rewrite Hti. cbn [py_keys mbind exc_bind].
  rewrite Hname. cbn [as_str mbind exc_bind]. rewrite Hex.
  cbn [mbind exc_bind]. rewrite Htrace, Hsession. cbn [mbind exc_bind].
  rewrite Hmk, Happ. reflexivity.
Qed.

(** X12. End to end: after capture_prompt.py has stashed a prompt, hook.py
    run on an Edit event appends exactly one record to the session file
    named at capture time (no other file changes); the record carries the
    sanitized prompt and the author of the capture, and the slot is left
    as the capture wrote it. *)
Theorem capture_then_edit
    (unicode_alnum : char -> bool) (py_repr : json -> str)
    (e1 e2 : env) (i1 : stdin) (w : fs) (raw : str) (d : dict) :
  blamebot_is_dir w = true ->
  mkdir_ok w = true ->
  can_write_state w = true ->
  can_append w (capture_prompt.session_filename e1) = true ->
  py_get (payload i1) (lit "prompt") (JStr []) = Ok (JStr raw) ->
  edit_event_ok (JDict d) = true ->
  let w1 := capture_prompt.run unicode_alnum e1 i1 w in
  let w2 := hook.run py_repr e2 (InputJson (JDict d)) w1 in
  exists cleaned r,
    capture_prompt.clean_prompt unicode_alnum (JStr raw) = Ok cleaned
    /\ log_files w2
       = <[capture_prompt.session_filename e1 :=
             read_log w (capture_prompt.session_filename e1) ++ [r]]>
           (log_files w)
    /\ Record_.prompt r = JStr cleaned
    /\ Record_.author r = JStr (capture_prompt.get_git_author e1)
    /\ state_file w2 = state_file w1.
Proof.
  intros Hdir Hmk Hwr Happ Hraw Hev. cbv zeta.
  destruct (capture_run_stash unicode_alnum e1 i1 w raw Hdir Hmk Hwr Hraw)
    as (ps & cleaned & Hc & Hrun & Hp & _ & Hfile & Hauthor & _).
  rewrite Hrun.
  destruct (edit_event_extracts py_repr d (project_dir e2) Hev) as [ed Hex].
  set (w1 := set_state_file w (SlotJson (JDict ps))).
  assert (Hname : hook.determine_session_file e2 (JDict ps)
                  = Ok (JStr (capture_prompt.session_filename e1))).
  { unfold hook.determine_session_file. rewrite py_get_dict, Hfile.
    cbn [from_option id mbind exc_bind]. rewrite truthy_str.
    rewrite bool_decide_eq_false_2 by apply session_filename_nonempty.
    reflexivity. }
  destruct (main_appends_fields py_repr e2 w1 d ps [ed]
              (capture_prompt.session_filename e1))
    as (session & trace & _ & _ & Hmain);
    try assumption; try reflexivity.
  unfold hook.run. rewrite Hmain.
  exists cleaned. eexists. split; [exact Hc|]. split; [reflexivity|].
  rewrite Hp, Hauthor. split; [reflexivity|]. split; reflexivity.
Qed.

Lemma capture_then_edit_witness :
  exists cleaned r,
    capture_prompt.clean_prompt ascii_only
      (jstr "<ide_opened_file>The user opened a.py</ide_opened_file> fix bug")
    = Ok cleaned
    /\ log_files (hook.run no_repr sample_env (InputJson edit_example) stashed_fs)
       = <[capture_prompt.session_filename sample_env :=
             read_log fresh_fs (capture_prompt.session_filename sample_env) ++ [r]]>
           (log_files fresh_fs)
    /\ Record_.prompt r = JStr cleaned
    /\ Record_.author r = jstr "dev".
Proof.
  destruct (capture_then_edit ascii_only no_repr sample_env sample_env
              (InputJson prompt_example) fresh_fs
              (lit "<ide_opened_file>The user opened a.py</ide_opened_file> fix bug")
              (list_to_map
                 [(lit "tool_name", jstr "Edit");
                  (lit "tool_use_id", jstr "toolu_01");
                  (lit "session_id", jstr "s-1");
                  (lit "tool_input",
                   obj [("file_path", jstr "/proj/src/a.py");
                        ("old_string", jstr "foo");
                        ("new_string", jstr "bar baz")]%string);
                  (lit "tool_response",
                   obj [("structuredPatch"%string, JList [descriptor 10 5])])])
              eq_refl eq_refl eq_refl eq_refl eq_refl)
    as (cleaned & r & Hc & Hlog & Hp & Ha & _).
  - vm_compute. reflexivity.
  - exists cleaned, r. split; [exact Hc|]. split; [exact Hlog|].
    split; [exact Hp|]. rewrite Ha. vm_compute. reflexivity.
Defined.

(** ** Line ranges: what the resolver guarantees *)

Lemma range_end_ge (start lines end_ : json) :
  hook.range_end start lines = Ok end_ ->
  exists s e, as_int start = Ok s /\ end_ = JInt e /\ (s <= e)%Z.
Proof.
  unfold hook.range_end. intros H. exc_inv H. inversion H; subst.
  exists v0. eexists. split; [assumption|]. split; [reflexivity|]. lia.
Qed.

(** X13. On payloads whose numbers are integers (the values of [json];
    a floating-point newStart or newLines is outside the embedding), a
    resolved range never ends before it starts: whenever
    [extract_line_numbers] returns, either both ends are null or the start
    is an integer or a boolean and the end is an integer not below it. The
    same holds for the range of each sub-edit of a MultiEdit. *)
Theorem line_range_end_not_before_start :
  (forall data start end_,
      hook.extract_line_numbers data = Ok (start, end_) ->
      (start = JNull /\ end_ = JNull)
      \/ exists s e, as_int start = Ok s /\ end_ = JInt e /\ (s <= e)%Z)
  /\ (forall patches i start end_,
        hook.sub_edit_lines patches i = Ok (start, end_) ->
        (start = JNull /\ end_ = JNull)
        \/ exists s e, as_int start = Ok s /\ end_ = JInt e /\ (s <= e)%Z).
Proof.
  split.
  - intros data start end_ H. unfold hook.extract_line_numbers in H.
    exc_inv H. destruct (negb (truthy v0)); [inversion H; auto|].
    exc_inv H. destruct (negb (is_none v2)); [|inversion H; auto].
    exc_inv H. inversion H; subst. right. eapply range_end_ge. eassumption.
  - intros patches i start end_ H. unfold hook.sub_edit_lines in H.
    exc_inv H. destruct (i <? v)%nat; [|inversion H; auto].
    exc_inv H. destruct (negb (is_none v1)) eqn:E.
    + exc_inv H. inversion H; subst. right. eapply range_end_ge. eassumption.
    + inversion H; subst. left. split; [|reflexivity].
      apply is_none_true. destruct (is_none start); [reflexivity|discriminate].
Qed.

Lemma line_range_end_not_before_start_witness :
  (JInt 10 = JNull /\ JInt 14 = JNull)
  \/ exists s e, as_int (JInt 10) = Ok s /\ JInt 14 = JInt e /\ (s <= e)%Z.
Proof.
  apply (proj1 line_range_end_not_before_start (patched [descriptor 10 5])).
  reflexivity.
Defined.

(** X14. Absent data is null, not an error: a payload without
    tool_response, a tool_response without structuredPatch, and a first
    patch entry without newStart (whatever else it holds) all resolve to
    (null, null). *)
Theorem line_range_absent_data (d : dict) :
  (d !! lit "tool_response" = None ->
   hook.extract_line_numbers (JDict d) = Ok (JNull, JNull))
  /\ (forall tr,
        d !! lit "tool_response" = Some (JDict tr) ->
        tr !! lit "structuredPatch" = None ->
        hook.extract_line_numbers (JDict d) = Ok (JNull, JNull))
  /\ (forall tr pm rest,
        d !! lit "tool_response" = Some (JDict tr) ->
        tr !! lit "structuredPatch" = Some (JList (JDict pm :: rest)) ->
        pm !! lit "newStart" = None ->
        hook.extract_line_numbers (JDict d) = Ok (JNull, JNull)).
Proof.
  unfold hook.extract_line_numbers. rewrite py_get_dict. split; [|split].
  - intros ->. reflexivity.
  - intros tr -> Htr. cbn [from_option id mbind exc_bind].
    rewrite py_get_dict, Htr. reflexivity.
  - intros tr pm rest -> Htr Hs. cbn [from_option id mbind exc_bind].
    rewrite py_get_dict, Htr. simpl. rewrite Hs. reflexivity.
Qed.

Lemma line_range_absent_data_witness :
  hook.extract_line_numbers unknown_example = Ok (JNull, JNull)
  /\ hook.extract_line_numbers
       (patched [obj [("oldStart"%string, JInt 3)]]) = Ok (JNull, JNull).
Proof.
  split.
  - apply (proj1 (line_range_absent_data _)). reflexivity.
  - eapply (proj2 (proj2 (line_range_absent_data _))); reflexivity.
Defined.

(** ** The change summary is one bounded line *)

Lemma replace_nl_no_newline (s : str) : Forall (fun c => c <> NL) (replace_nl s).
Proof.
  induction s as [|c s IH]; [constructor|].
  simpl. constructor; [|exact IH].
  destruct (c =? NL) eqn:E; [discriminate|]. apply N.eqb_neq. exact E.
Qed.

Lemma replace_nl_length (s : str) : length (replace_nl s) = length s.
Proof. apply length_map. Qed.

Lemma strip_Forall (P : char -> Prop) (s : str) : Forall P s -> Forall P (strip s).
Proof.
  intros H. unfold strip.
  destruct (lstrip_suffix s) as [ws Hws]. rewrite Hws in H.
  apply Forall_app in H as [_ H].
  destruct (rstrip_prefix (lstrip s)) as [ws' Hws']. rewrite Hws' in H.
  apply Forall_app in H as [H _]. exact H.
Qed.

Lemma truncate_Forall (P : char -> Prop) (s : str) :
  P hook.ELLIPSIS -> Forall P s -> Forall P (hook.truncate s).
Proof.
  intros He H. unfold hook.truncate. destruct (_ <? _)%nat; [|exact H].
  apply Forall_app. split; [apply Forall_take; exact H | repeat constructor; exact He].
Qed.

Lemma truncate_length (s : str) : (length (hook.truncate s) <= 201)%nat.
Proof.
  unfold hook.truncate, hook.MAX_LEN.
  destruct (200 <? length s)%nat eqn:E.
  - rewrite length_app, length_take. cbn [length]. lia.
  - apply Nat.ltb_ge in E. lia.
Qed.

(** X15. The change summary of two strings always exists, is a single
    line (it holds no newline character) and is at most 405 characters
    long: two sides of at most 201 characters and the arrow between them. *)
Theorem change_summary_is_one_bounded_line (o n : str) :
  exists c,
    hook.compact_change_summary (JStr o) (JStr n) = Ok c
    /\ Forall (fun a => a <> NL) c
    /\ (length c <= 405)%nat.
Proof.
  unfold hook.compact_change_summary.
  destruct (negb (truthy (JStr o)) && truthy (JStr n)).
  { eexists. split; [reflexivity|]. split.
    - apply Forall_app. split; [repeat constructor; discriminate|].
      apply replace_nl_no_newline.
    - rewrite length_app, replace_nl_length, length_take.
      unfold hook.MAX_LEN.
      replace (length (lit "added: ")) with 7%nat by reflexivity. lia. }
  destruct (truthy (JStr o) && negb (truthy (JStr n))).
  { eexists. split; [reflexivity|]. split.
    - apply Forall_app. split; [repeat constructor; discriminate|].
      apply replace_nl_no_newline.
    - rewrite length_app, replace_nl_length, length_take.
      unfold hook.MAX_LEN.
      replace (length (lit "removed: ")) with 9%nat by reflexivity. lia. }
  cbn [as_str mbind exc_bind].
  assert (Ho : Forall (fun a => a <> NL) (strip (replace_nl o)))
    by apply strip_Forall, replace_nl_no_newline.
  assert (Hn : Forall (fun a => a <> NL) (strip (replace_nl n)))
    by apply strip_Forall, replace_nl_no_newline.
  assert (He : hook.ELLIPSIS <> NL) by discriminate.
  destruct (20 <? _)%nat; eexists; (split; [reflexivity|]); split.
  - apply Forall_app. split.
    + apply truncate_Forall; [exact He|].
      constructor; [exact He | apply Forall_drop; exact Ho].
    + apply Forall_app. split; [repeat constructor; discriminate|].
      apply truncate_Forall; [exact He|].
      constructor; [exact He | apply Forall_drop; exact Hn].
  - rewrite !length_app.
    pose proof (truncate_length
                  (hook.ELLIPSIS :: drop (Nat.max
                     (common_prefix (strip (replace_nl o)) (strip (replace_nl n)) - 10) 0)
                     (strip (replace_nl o)))).
    pose proof (truncate_length
                  (hook.ELLIPSIS :: drop (Nat.max
                     (common_prefix (strip (replace_nl o)) (strip (replace_nl n)) - 10) 0)
                     (strip (replace_nl n)))).
    cbn [length]. lia.
  - apply Forall_app. split; [apply truncate_Forall; assumption|].
    apply Forall_app. split; [repeat constructor; discriminate|].
    apply truncate_Forall; assumption.
  - rewrite !length_app.
    pose proof (truncate_length (strip (replace_nl o))).
    pose proof (truncate_length (strip (replace_nl n))).
    cbn [length]. lia.
Qed.

(** ** Fingerprints of blank text *)

Lemma str_split_blank (t : str) :
  Forall (fun c => is_space c = true) t -> str_split t = [].
Proof.
  induction 1 as [|c t Hc _ IH]; [reflexivity|].
  simpl. rewrite Hc. exact IH.
Qed.

(** X16. A text that is not empty but holds only whitespace does not get
    the empty fingerprint: it is normalized to the empty message, whose
    SHA-256 begins e3b0c44298fc1c14. *)
Theorem blank_text_fingerprint (t : str) :
  t <> [] ->
  Forall (fun c => is_space c = true) t ->
  hook.content_hash (JStr t) = Ok (lit "e3b0c44298fc1c14").
Proof.
  intros Ht Hblank. unfold hook.content_hash.
  destruct t as [|c t]; [congruence|].
  cbn [truthy negb as_str mbind exc_bind].
  rewrite (str_split_blank _ Hblank). vm_compute. reflexivity.
Qed.

Lemma blank_text_fingerprint_witness :
  hook.content_hash (JStr [SP; NL; SP]) = Ok (lit "e3b0c44298fc1c14").
Proof.
  apply (blank_text_fingerprint [SP; NL; SP]).
  - discriminate.
  - repeat constructor.
Defined.

(** ** Session file names *)

Lemma lit_uint_filename (u : Decimal.uint) :
  Forall (fun c => filename_char c = true) (lit (NilEmpty.string_of_uint u)).
Proof. induction u; simpl; constructor; try reflexivity; assumption. Qed.

Lemma dec_N_filename (n : N) : Forall (fun c => filename_char c = true) (dec_N n).
Proof.
  unfold dec_N, NilZero.string_of_uint.
  destruct (N.to_uint n) eqn:E; try (rewrite <- E; apply lit_uint_filename).
  repeat constructor.
Qed.

Lemma pad2_filename (n : N) : Forall (fun c => filename_char c = true) (pad2 n).
Proof.
  unfold pad2. destruct (n <? 10).
  - apply Forall_app_2; [repeat constructor | apply dec_N_filename].
  - apply dec_N_filename.
Qed.

Lemma strftime_compact_filename (t : struct_time) :
  Forall (fun c => filename_char c = true) (strftime_compact t).
Proof.
  unfold strftime_compact.
  apply Forall_app_2; [apply dec_N_filename|].
  apply Forall_app_2; [apply pad2_filename|].
  apply Forall_app_2; [apply pad2_filename|].
  apply Forall_app_2; [repeat constructor|].
  apply Forall_app_2; [apply pad2_filename|].
  apply Forall_app_2; [apply pad2_filename|].
  apply Forall_app_2; [apply pad2_filename | repeat constructor].
Qed.

Lemma random_choices_filename (draws : nat -> nat) (k : nat) :
  Forall (fun c => filename_char c = true)
         (random_choices draws ascii_lowercase_digits k).
Proof.
  unfold random_choices. apply Forall_forall. intros c Hc.
  apply list_elem_of_In, in_map_iff in Hc as (j & <- & _).
  assert (Hall : Forall (fun c => filename_char c = true) ascii_lowercase_digits)
    by (unfold ascii_lowercase_digits; repeat constructor).
  rewrite Forall_forall in Hall. apply Hall. apply list_elem_of_In.
  apply nth_In. apply Nat.mod_upper_bound. discriminate.
Qed.

(** X17. Every generated session file name, orphan or not, is made of
    digits, lowercase letters, [T], [Z], [-] and [.] only (so it holds no
    path separator and stays inside the log directory), and is not empty. *)
Theorem session_filenames_are_plain (e : env) :
  Forall (fun c => filename_char c = true) (capture_prompt.session_filename e)
  /\ Forall (fun c => filename_char c = true) (hook.orphan_filename e)
  /\ capture_prompt.session_filename e <> []
  /\ hook.orphan_filename e <> [].
Proof.
  unfold capture_prompt.session_filename, hook.orphan_filename. cbv zeta.
  split; [|split; [|split]].
  - apply Forall_app_2; [apply strftime_compact_filename|].
    apply Forall_app_2; [repeat constructor|].
    apply Forall_app_2; [apply random_choices_filename | repeat constructor].
  - apply Forall_app_2; [apply strftime_compact_filename|].
    apply Forall_app_2; [repeat constructor|].
    apply Forall_app_2; [apply random_choices_filename | repeat constructor].
  - destruct (strftime_compact (clock e)); discriminate.
  - destruct (strftime_compact (clock e)); discriminate.
Qed.

(** The names that capture_prompt.py gives its session files are bare file
    names, so every slot it writes names a file of the log directory. *)
Lemma filename_char_no_slash (s : str) :
  Forall (fun c => filename_char c = true) s ->
  Forall (fun c => c <> pathlib.SLASH) s.
Proof.
  intros H. eapply Forall_impl; [exact H|].
  intros c Hc ->. discriminate Hc.
Qed.

Lemma session_filename_no_slash (e : env) :
  Forall (fun c => c <> pathlib.SLASH) (capture_prompt.session_filename e).
Proof.
  apply filename_char_no_slash.
  unfold capture_prompt.session_filename. cbv zeta.
  apply Forall_app_2; [apply strftime_compact_filename|].
  apply Forall_app_2; [repeat constructor|].
  apply Forall_app_2; [apply random_choices_filename | repeat constructor].
Qed.

Lemma capture_names_bare_file (unicode_alnum : char -> bool)
    (e : env) (input : stdin) (w : fs) :
  names_bare_file (state_file w) ->
  names_bare_file (state_file (capture_prompt.run unicode_alnum e input w)).
Proof.
  intros Hw. unfold capture_prompt.run.
  destruct (capture_prompt.main unicode_alnum e input w) as [w'|] eqn:Hmain;
    [|exact Hw].
  unfold capture_prompt.main in Hmain.
  destruct (blamebot_is_dir w); cbn [negb] in Hmain; [|inversion Hmain; subst; exact Hw].
  exc_inv Hmain. destruct (mkdir_ok w); cbn [negb] in Hmain; [|discriminate].
  destruct (can_write_state w); cbn [negb] in Hmain; [|discriminate].
  inversion Hmain; subst. cbn [state_file set_state_file].
  intros ps name Hs Hn. injection Hs as <-.
  rewrite !lookup_insert_ne in Hn by (vm_compute; discriminate).
  rewrite lookup_insert in Hn. case_decide as Heq; [|contradiction].
  injection Hn as <-. apply session_filename_no_slash.
Qed.

(** ** Paths *)

Lemma split_slash_no_slash (s : str) :
  Forall (Forall (fun c => c <> pathlib.SLASH)) (pathlib.split_slash s).
Proof.
  induction s as [|c s IH]; [repeat constructor|].
  simpl. destruct (c =? pathlib.SLASH) eqn:E.
  - constructor; [constructor | exact IH].
  - apply N.eqb_neq in E.
    destruct (pathlib.split_slash s) as [|w ws]; [repeat constructor; exact E|].
    inversion IH; subst. constructor; [constructor; assumption | assumption].
Qed.

Lemma Path_parts_components (s : str) : Forall component (pathlib.parts (pathlib.Path s)).
Proof.
  unfold pathlib.Path. cbn [pathlib.parts].
  pose proof (split_slash_no_slash s) as H.
  induction H as [|w ws Hw _ IH]; [constructor|].
  cbn [List.filter].
  destruct (bool_decide (w = [])) eqn:E1; [exact IH|].
  destruct (bool_decide (w = [pathlib.DOT])) eqn:E2; [exact IH|].
  cbn [orb negb]. constructor; [|exact IH].
  apply bool_decide_eq_false in E1. apply bool_decide_eq_false in E2.
  repeat split; assumption.
Qed.

Lemma parse_root_no_slash (c : char) (s : str) :
  c <> pathlib.SLASH -> pathlib.parse_root (c :: s) = [].
Proof.
  intros Hc. unfold pathlib.parse_root.
  repeat case_match; try reflexivity; subst; exfalso; apply Hc; reflexivity.
Qed.

Lemma join_slash_head (p : str) (ps : list str) :
  component p -> exists c s, pathlib.join_slash (p :: ps) = c :: s /\ c <> pathlib.SLASH.
Proof.
  intros (Hne & _ & Hp). destruct p as [|c p]; [congruence|].
  inversion Hp; subst.
  destruct ps; simpl; eauto.
Qed.

(** The string of a relative path has no root. *)
Lemma relative_to_str_root (ps : list str) :
  Forall component ps ->
  pathlib.root (pathlib.Path
                  (pathlib.to_str {| pathlib.root := []; pathlib.parts := ps |})) = [].
Proof.
  intros H. unfold pathlib.to_str. cbn [pathlib.root pathlib.parts pathlib.Path].
  destruct ps as [|p ps]; [reflexivity|].
  inversion H; subst.
  destruct (join_slash_head p ps) as (c & s & Hj & Hc); [assumption|].
  cbn [app]. rewrite Hj. apply parse_root_no_slash. exact Hc.
Qed.

(** X18. Relativizing twice is relativizing once, when the project root is
    an absolute path: what [relativize_path] returns is returned unchanged
    when it is given back to it (the MultiEdit branch relies on this, as it
    relativizes the invocation's path a second time). *)
Theorem relativize_path_idempotent (p r project_dir : str) :
  pathlib.root (pathlib.Path project_dir) <> [] ->
  hook.relativize_path (JStr p) project_dir = Ok r ->
  hook.relativize_path (JStr r) project_dir = Ok r.
Proof.
  intros Habs H. unfold hook.relativize_path in *.
  cbn [as_str mbind exc_bind] in *.
  destruct (pathlib.relative_to (pathlib.Path p) (pathlib.Path project_dir))
    as [q|] eqn:E.
  - inversion H; subst r. clear H.
    assert (Hq : pathlib.root q = [] /\ Forall component (pathlib.parts q)).
    { unfold pathlib.relative_to in E.
      destruct (_ && _) in E; [|discriminate E].
      injection E as <-. split; [reflexivity|].
      apply Forall_drop, Path_parts_components. }
    destruct q as [rq pq]. cbn [pathlib.root pathlib.parts] in Hq.
    destruct Hq as [-> Hc].
    pose proof (relative_to_str_root pq Hc) as Hroot.
    unfold pathlib.relative_to. rewrite Hroot.
    rewrite bool_decide_eq_false_2 by congruence. reflexivity.
  - inversion H; subst r. rewrite E. reflexivity.
Qed.

Lemma relativize_path_idempotent_witness :
  hook.relativize_path (jstr "src/a.py") (lit "/proj") = Ok (lit "src/a.py").
Proof.
  apply (relativize_path_idempotent (lit "/proj/src/a.py")).
  - discriminate.
  - reflexivity.
Defined.

Lemma split_slash_component (p : str) :
  Forall (fun c => c <> pathlib.SLASH) p -> pathlib.split_slash p = [p].
Proof.
  induction 1 as [|c p Hc _ IH]; [reflexivity|].
  simpl. apply N.eqb_neq in Hc. rewrite Hc, IH. reflexivity.
Qed.

Lemma split_slash_app (p s : str) :
  Forall (fun c => c <> pathlib.SLASH) p ->
  pathlib.split_slash (p ++ pathlib.SLASH :: s) = p :: pathlib.split_slash s.
Proof.
  induction 1 as [|c p Hc _ IH]; [reflexivity|].
  cbn [app pathlib.split_slash]. apply N.eqb_neq in Hc. rewrite Hc, IH. reflexivity.
Qed.

(** Splitting undoes joining. *)
Lemma split_join_slash (cs : list str) :
  cs <> [] -> Forall component cs ->
  pathlib.split_slash (pathlib.join_slash cs) = cs.
Proof.
  intros Hne H. induction H as [|p cs (_ & _ & Hp) Hcs IH]; [congruence|].
  destruct cs as [|q cs].
  - apply split_slash_component. exact Hp.
  - cbn [pathlib.join_slash]. rewrite split_slash_app by exact Hp.
    f_equal. apply IH. discriminate.
Qed.

Lemma filter_components (cs : list str) :
  Forall component cs ->
  List.filter (fun p => negb (bool_decide (p = []) || bool_decide (p = [pathlib.DOT]))) cs
  = cs.
Proof.
  induction 1 as [|p cs (H1 & H2 & _) _ IH]; [reflexivity|].
  cbn [List.filter].
  rewrite (bool_decide_eq_false_2 _ H1), (bool_decide_eq_false_2 _ H2).
  cbn [orb negb]. f_equal. exact IH.
Qed.

(** Parsing the absolute path written from clean components gives them back. *)
Lemma Path_of_components (cs : list str) :
  Forall component cs ->
  pathlib.Path (pathlib.SLASH :: pathlib.join_slash cs)
  = {| pathlib.root := [pathlib.SLASH]; pathlib.parts := cs |}.
Proof.
  intros H. unfold pathlib.Path. f_equal.
  - destruct cs as [|p cs]; [reflexivity|].
    inversion H; subst.
    destruct (join_slash_head p cs) as (c & s & Hj & Hc); [assumption|].
    rewrite Hj. unfold pathlib.parse_root.
    repeat case_match; try reflexivity; subst; try discriminate;
      exfalso; apply Hc; congruence.
  - destruct cs as [|p cs]; [reflexivity|].
    cbn [pathlib.split_slash]. 
    replace (pathlib.SLASH =? pathlib.SLASH) with true by reflexivity.
    rewrite split_join_slash by (discriminate || exact H).
    etransitivity; [|apply (filter_components (p :: cs) H)]. reflexivity.
Qed.

(** X19. A file under the project root is recorded by its path relative to
    the root, and a path that is not under the root is passed through
    unchanged: for clean components [ds] of the root and [ps] of the file,
    [/ds/fs] relative to [/ds] is [fs], and [/ps] stays [/ps] when [ds] does
    not begin [ps]. *)
Theorem relativize_path_under_root (ds : list str) :
  Forall component ds ->
  (forall fs,
      Forall component fs -> fs <> [] ->
      hook.relativize_path
        (JStr (pathlib.SLASH :: pathlib.join_slash (ds ++ fs)))
        (pathlib.SLASH :: pathlib.join_slash ds)
      = Ok (pathlib.join_slash fs))
  /\ (forall ps,
        Forall component ps -> take (length ds) ps <> ds ->
        hook.relativize_path
          (JStr (pathlib.SLASH :: pathlib.join_slash ps))
          (pathlib.SLASH :: pathlib.join_slash ds)
        = Ok (pathlib.SLASH :: pathlib.join_slash ps)).
Proof.
  intros Hds. split.
  - intros fs Hfs Hne. unfold hook.relativize_path.
    cbn [as_str mbind exc_bind].
    rewrite !Path_of_components by (try apply Forall_app_2; assumption).
    unfold pathlib.relative_to. cbn [pathlib.root pathlib.parts].
    rewrite take_app_length, drop_app_length.
    rewrite !bool_decide_eq_true_2 by reflexivity. cbn [andb].
    unfold pathlib.to_str. cbn [pathlib.root pathlib.parts].
    destruct fs; [congruence|reflexivity].
  - intros ps Hps Hnot. unfold hook.relativize_path.
    cbn [as_str mbind exc_bind].
    rewrite !Path_of_components by assumption.
    unfold pathlib.relative_to. cbn [pathlib.root pathlib.parts].
    rewrite (bool_decide_eq_false_2 _ Hnot), andb_false_r. reflexivity.
Qed.

Lemma relativize_path_under_root_witness :
  hook.relativize_path (jstr "/home/me/proj/src/a.py") (lit "/home/me/proj")
  = Ok (lit "src/a.py")
  /\ hook.relativize_path (jstr "/etc/hosts") (lit "/home/me/proj")
     = Ok (lit "/etc/hosts").
Proof.
  assert (Hds : Forall component [lit "home"; lit "me"; lit "proj"]).
  { repeat constructor; discriminate. }
  split.
  - apply (proj1 (relativize_path_under_root _ Hds) [lit "src"; lit "a.py"]).
    + repeat constructor; discriminate.
    + discriminate.
  - apply (proj2 (relativize_path_under_root _ Hds) [lit "etc"; lit "hosts"]).
    + repeat constructor; discriminate.
    + discriminate.
Defined.

(** ** MultiEdit *)

Lemma mapM_exc_lookup {A B} (f : A -> exc B) (l : list A) (r : list B) (i : nat) (y : B) :
  mapM f l = Ok r -> r !! i = Some y -> exists x, l !! i = Some x /\ f x = Ok y.
Proof.
  revert r i. induction l as [|a l IH]; intros r i H Hy; simpl in H.
  - inversion H; subst. discriminate Hy.
  - apply bind_Ok in H as (b & Hb & H). apply bind_Ok in H as (k & Hk & H).
    inversion H; subst. destruct i as [|i]; simpl in Hy.
    + inversion Hy; subst. exists a. split; [reflexivity | exact Hb].
    + apply (IH k i Hk Hy).
Qed.

Lemma combine_seq_lookup {A} (l : list A) (k i j : nat) (x : A) :
  combine (seq k (length l)) l !! i = Some (j, x) ->
  j = (k + i)%nat /\ l !! i = Some x.
Proof.
  revert k i. induction l as [|a l IH]; intros k i H; [discriminate H|].
  simpl in H. destruct i as [|i]; simpl in H.
  - inversion H; subst. split; [lia | reflexivity].
  - apply IH in H as [-> H]. split; [lia | exact H].
Qed.

Lemma sub_edit_lines_beyond (ps : list json) (i : nat) :
  (length ps <= i)%nat -> hook.sub_edit_lines (JList ps) i = Ok (JNull, JNull).
Proof.
  intros H. unfold hook.sub_edit_lines. cbn [py_len mbind exc_bind].
  apply Nat.ltb_ge in H. rewrite H. reflexivity.
Qed.

(** X20. A MultiEdit event yields one record per sub-edit, in order: the
    i-th record carries the fingerprint of the i-th sub-edit's new string
    and the summary of its old and new strings, its line range is read
    from the i-th structured-patch entry, and it is (null, null) when the
    patch list has no i-th entry. *)
Theorem multiedit_records_in_order (py_repr : json -> str)
    (d : dict) (items ps : list json) (project_dir : str)
    (edits : list hook.Edit.t) :
  d !! lit "tool_name" = Some (jstr "MultiEdit") ->
  hook.sub_edits (default (JDict ∅) (d !! lit "tool_input")) = Ok (JList items) ->
  py_get (default (JDict ∅) (d !! lit "tool_response"))
         (lit "structuredPatch") (JList []) = Ok (JList ps) ->
  hook.extract_edits py_repr (JDict d) project_dir = Ok edits ->
  length edits = length items
  /\ forall i ed,
       edits !! i = Some ed ->
       exists sub new_str old_str,
         items !! i = Some sub
         /\ py_get sub (lit "new_string") (JStr []) = Ok new_str
         /\ py_get sub (lit "old_string") (JStr []) = Ok old_str
         /\ hook.content_hash new_str = Ok (hook.Edit.content_hash ed)
         /\ hook.compact_change_summary old_str new_str = Ok (hook.Edit.change ed)
         /\ hook.sub_edit_lines (JList ps) i
            = Ok (hook.Edit.line_start ed, hook.Edit.line_end ed)
         /\ ((length ps <= i)%nat ->
             hook.Edit.line_start ed = JNull /\ hook.Edit.line_end ed = JNull).
Proof.
  intros Hname Hsubs Hps H.
  unfold hook.extract_edits in H. rewrite !py_get_dict in H.
  cbn [mbind exc_bind] in H. rewrite Hname in H. cbn [from_option id] in H.
  exc_inv H.
  replace (str_eqb (jstr "MultiEdit") (lit "Edit")) with false in H by reflexivity.
  replace (str_eqb (jstr "MultiEdit") (lit "Write")) with false in H by reflexivity.
  replace (str_eqb (jstr "MultiEdit") (lit "MultiEdit")) with true in H by reflexivity.
  rewrite Hsubs in H. cbn [mbind exc_bind] in H.
  rewrite Hps in H. cbn [py_iter mbind exc_bind] in H.
  split.
  - apply mapM_exc_length in H. rewrite H. apply enumerate_length.
  - intros i ed Hed.
    destruct (mapM_exc_lookup _ _ _ _ _ H Hed) as ([j sub] & Hsub & Hf).
    apply combine_seq_lookup in Hsub as [-> Hsub]. cbn [Nat.add] in Hf.
    unfold hook.sub_edit in Hf. exc_inv Hf. destruct v3 as [start end_].
    exc_inv Hf. inversion Hf; subst ed. cbn [hook.Edit.content_hash
      hook.Edit.change hook.Edit.line_start hook.Edit.line_end].
    exists sub, v1, v2. repeat (split; [assumption|]).
    intros Hlen. rewrite sub_edit_lines_beyond in Hv3 by exact Hlen.
    inversion Hv3. split; reflexivity.
Qed.

Lemma multiedit_records_in_order_witness :
  exists edits,
    hook.extract_edits no_repr multiedit_example (lit "/proj") = Ok edits
    /\ length edits = 3%nat
    /\ forall ed, edits !! 2%nat = Some ed ->
                  hook.Edit.line_start ed = JNull /\ hook.Edit.line_end ed = JNull.
Proof.
  destruct (hook.extract_edits no_repr multiedit_example (lit "/proj"))
    as [edits|] eqn:Hex; [|vm_compute in Hex; discriminate Hex].
  destruct (multiedit_records_in_order no_repr (list_to_map multiedit_fields)
              [sub_edit_example "a" "b"; sub_edit_example "c" "d";
               sub_edit_example "e" "f"]
              [descriptor 3 1; descriptor 8 2] (lit "/proj") edits)
    as [Hlen Hall].
  - reflexivity.
  - reflexivity.
  - reflexivity.
  - exact Hex.
  - exists edits. split; [reflexivity|]. split; [exact Hlen|].
    intros ed Hed. destruct (Hall 2%nat ed Hed) as (_ & _ & _ & _ & _ & _ & _ & _ & _ & Hnull).
    apply Hnull. simpl. lia.
Defined.


(** ** More of the handler *)

Section handler_more.

Variable py_repr : json -> str.

(** X21. An Edit event of the documented shape yields exactly one record:
    its file is the relativized path, its line range is what
    [extract_line_numbers] resolves, its fingerprint is that of the new
    string, and its summary is that of the old and new strings. *)
Theorem edit_event_record (d ti : dict) (project_dir : str) :
  edit_event_ok (JDict d) = true ->
  d !! lit "tool_input" = Some (JDict ti) ->
  exists path file start end_ h c,
    hook.input_path (JDict ti) = Ok (JStr path)
    /\ hook.relativize_path (JStr path) project_dir = Ok file
    /\ hook.extract_line_numbers (JDict d) = Ok (start, end_)
    /\ hook.content_hash (default (JStr []) (ti !! lit "new_string")) = Ok h
    /\ hook.compact_change_summary (default (JStr []) (ti !! lit "old_string"))
                                   (default (JStr []) (ti !! lit "new_string")) = Ok c
    /\ hook.extract_edits py_repr (JDict d) project_dir
       = Ok [ {| hook.Edit.file := file; hook.Edit.line_start := start;
                 hook.Edit.line_end := end_; hook.Edit.content_hash := h;
                 hook.Edit.change := c |} ].
Proof.
  unfold edit_event_ok. intros H Hti. rewrite Hti in H.
  apply andb_true_iff in H as [H Hresp]. apply andb_true_iff in H as [Hname H].
  apply andb_true_iff in H as [H Hnew]. apply andb_true_iff in H as [Hpath Hold].
  destruct (hook.input_path (JDict ti)) as [named|] eqn:Hnamed; [|discriminate].
  destruct named as [| | |path| |]; try discriminate.
  destruct (relativize_path_str path project_dir) as [f Hf].
  destruct (extract_line_numbers_ok d Hresp) as [[ls le] Hlines].
  destruct (content_hash_encodable _ Hnew) as [h Hh].
  destruct (default (JStr []) (ti !! lit "old_string")) as [| | |o| |] eqn:Ho;
    try discriminate.
  destruct (default (JStr []) (ti !! lit "new_string")) as [| | |n| |] eqn:Hn;
    try discriminate.
  destruct (compact_change_summary_str o n) as [c Hc].
  exists path, f, ls, le, h, c. repeat (split; [assumption || reflexivity|]).
  unfold hook.extract_edits. rewrite !py_get_dict.
  cbn [mbind exc_bind]. rewrite Hti. cbn [from_option id].
  rewrite Hnamed. cbn [mbind exc_bind]. rewrite Hf. cbn [mbind exc_bind].
  rewrite Hname. rewrite !py_get_dict. cbn [mbind exc_bind].
  rewrite Hlines. cbn [mbind exc_bind]. rewrite Ho, Hn, Hh.
  cbn [mbind exc_bind]. rewrite Hc. reflexivity.
Qed.

(** X22. A slot that holds JSON which is not an object, or an object whose
    session_file is a true value that is not a string, makes [main]
    raise; the script swallows the exception, so the event leaves no
    record and nothing else changes. *)
Theorem handler_drops_event_on_bad_slot (e : env) (input : stdin) (w : fs) (v : json) :
  state_file w = SlotJson v ->
  (forall ps, v <> JDict ps)
  \/ (exists ps x, v = JDict ps /\ ps !! lit "session_file" = Some x
                   /\ truthy x = true /\ forall s, x <> JStr s) ->
  hook.run py_repr e input w = w.
Proof.
  intros Hslot H. unfold hook.run.
  destruct (hook.main py_repr e input w) as [w'|] eqn:Hmain; [|reflexivity].
  unfold hook.main, hook.load_prompt_state in Hmain. rewrite Hslot in Hmain.
  destruct (blamebot_is_dir w); cbn [negb] in Hmain; [|congruence].
  destruct input as [| |data]; [congruence| |].
  all: exc_inv Hmain;
    match goal with
    | Hd : hook.determine_session_file _ _ = Ok ?sf, Hs : as_str ?sf = Ok _ |- _ =>
        unfold hook.determine_session_file in Hd;
        destruct H as [H|(ps & x & -> & Hx & Ht & Hns)];
        [ apply bind_Ok in Hd as (y & Hg & _);
          apply py_get_Ok in Hg as (ps & Hps & _);
          exfalso; eapply H; exact Hps
        | rewrite py_get_dict, Hx in Hd; cbn [from_option id mbind exc_bind] in Hd;
          rewrite Ht in Hd; cbn [negb] in Hd; injection Hd as <-;
          destruct x; try discriminate Hs; exfalso; eapply Hns; reflexivity ]
    end.
Qed.

End handler_more.

Lemma edit_event_record_witness :
  exists path file start end_ h c,
    hook.input_path (obj [("file_path", jstr "/proj/src/a.py");
                          ("old_string", jstr "foo");
                          ("new_string", jstr "bar baz")]%string)
    = Ok (JStr path)
    /\ hook.relativize_path (JStr path) (lit "/proj") = Ok file
    /\ hook.extract_line_numbers edit_example = Ok (start, end_)
    /\ hook.content_hash (jstr "bar baz") = Ok h
    /\ hook.compact_change_summary (jstr "foo") (jstr "bar baz") = Ok c
    /\ hook.extract_edits no_repr edit_example (lit "/proj")
       = Ok [ {| hook.Edit.file := file; hook.Edit.line_start := start;
                 hook.Edit.line_end := end_; hook.Edit.content_hash := h;
                 hook.Edit.change := c |} ].
Proof.
  exact (edit_event_record no_repr
           (list_to_map
              [(lit "tool_name", jstr "Edit");
               (lit "tool_use_id", jstr "toolu_01");
               (lit "session_id", jstr "s-1");
               (lit "tool_input",
                obj [("file_path", jstr "/proj/src/a.py");
                     ("old_string", jstr "foo");
                     ("new_string", jstr "bar baz")]%string);
               (lit "tool_response",
                obj [("structuredPatch"%string, JList [descriptor 10 5])])])
           (list_to_map
              [(lit "file_path", jstr "/proj/src/a.py");
               (lit "old_string", jstr "foo");
               (lit "new_string", jstr "bar baz")])
           (lit "/proj") eq_refl eq_refl).
Defined.

Lemma handler_drops_event_on_bad_slot_witness :
  hook.run no_repr sample_env (InputJson edit_example)
    (set_state_file fresh_fs (SlotJson (obj [("session_file"%string, JInt 7)])))
  = set_state_file fresh_fs (SlotJson (obj [("session_file"%string, JInt 7)])).
Proof.
  eapply (handler_drops_event_on_bad_slot no_repr sample_env); [reflexivity|].
  right. eexists. exists (JInt 7).
  split; [reflexivity|]. split; [reflexivity|]. split; [reflexivity|].
  discriminate.
Defined.
